(** * linode-machine-manager: a model of the GitHub action's [index.js]

    The action creates or destroys a Linode instance that serves as a
    self-hosted GitHub runner.  The script is one asynchronous function
    [run] with two helpers, [waitForSSH] and [unregisterRunner].  Every
    effect of the script (logging through [@actions/core], child
    processes, timers, the Linode client and the HTTP client) is recorded
    in a log of events; the answers of the outside world are read from a
    record of oracles.  [await] is sequencing: the script has a single
    task. *)

From Stdlib Require Import String Ascii List ZArith Lia Bool Arith PeanoNat.
From Stdlib Require Import Numbers.DecimalString.
Import ListNotations.

Open Scope string_scope.
Open Scope nat_scope.

(** ** JavaScript built-ins used by the script

    Strings are sequences of code units; the model keeps the code units
    below 256. *)
Module Js.

(** White space and line terminators (ECMAScript WhiteSpace and
    LineTerminator) among the code units below 256: TAB, LF, VT, FF, CR,
    SP and NBSP. *)
Definition is_white (c : ascii) : bool :=
  let n := nat_of_ascii c in
  ((9 <=? n) && (n <=? 13)) || (n =? 32) || (n =? 160).

Fixpoint trimStart (s : string) : string :=
  match s with
  | EmptyString => EmptyString
  | String c r => if is_white c then trimStart r else s
  end.

Fixpoint trimEnd (s : string) : string :=
  match s with
  | EmptyString => EmptyString
  | String c r =>
      match trimEnd r with
      | EmptyString => if is_white c then EmptyString else String c EmptyString
      | r' => String c r'
      end
  end.

(** [String.prototype.trim]. *)
Definition trim (s : string) : string := trimEnd (trimStart s).

(** [String.prototype.split] with a separator of one code unit. *)
Fixpoint split (sep : ascii) (s : string) : list string :=
  match s with
  | EmptyString => [EmptyString]
  | String c r =>
      if Ascii.eqb c sep then EmptyString :: split sep r
      else match split sep r with
           | h :: t => String c h :: t
           | [] => [String c EmptyString]
           end
  end.

(** [String.prototype.includes]: the argument occurs at some position. *)
Fixpoint includes (s sub : string) : bool :=
  String.prefix sub s ||
  match s with
  | EmptyString => false
  | String _ r => includes r sub
  end.

(** [Array.prototype.includes] on an array of strings. *)
Definition array_includes (l : list string) (x : string) : bool :=
  existsb (String.eqb x) l.

(** [Array.prototype.join]; the conversion of an array to a string joins
    with a comma. *)
Fixpoint join (sep : string) (l : list string) : string :=
  match l with
  | [] => EmptyString
  | [x] => x
  | x :: r => x ++ sep ++ join sep r
  end.

(** Truthiness of a string: only the empty string is falsy. *)
Definition nonempty (s : string) : bool :=
  match s with EmptyString => false | _ => true end.

(** [a || b] on strings. *)
Definition or_else (a b : string) : string := if nonempty a then a else b.

Definition Z_to_string (z : Z) : string := NilEmpty.string_of_int (Z.to_int z).
Definition nat_to_string (n : nat) : string := NilEmpty.string_of_uint (Nat.to_uint n).

(** The values the script passes around untyped. [VObj] stands for the
    objects and functions whose content plays no role. *)
Inductive value :=
| VNull
| VNum (n : Z)
| VStr (s : string)
| VObj (name : string).

Definition truthy (v : value) : bool :=
  match v with
  | VNull => false
  | VNum n => negb (n =? 0)%Z
  | VStr s => nonempty s
  | VObj _ => true
  end.

(** The conversion a template literal applies to an interpolated value. *)
Definition to_string (v : value) : string :=
  match v with
  | VNull => "null"
  | VNum n => Z_to_string n
  | VStr s => s
  | VObj _ => "[object Object]"
  end.

(** [===] between a string and a value. *)
Definition strict_eq_str (s : string) (v : value) : bool :=
  match v with
  | VStr t => String.eqb s t
  | _ => false
  end.

(** What [Error] objects carry here: [message], and the [response] (status
    and status text) that the HTTP client attaches to a rejected request
    that did get an answer. *)
Record error := mkError {
  message : string;
  response : option (nat * string)
}.

Definition Error (msg : string) : error := mkError msg None.

(** The error of a reference to an identifier with no binding in scope. *)
Definition ReferenceError (x : string) : error := Error (x ++ " is not defined").

Definition N_to_string (n : N) : string := NilEmpty.string_of_uint (N.to_uint n).

(** Three decimals of a quotient by 1000 with the trailing zeros dropped. *)
Definition millis_fraction (r : N) : string :=
  let d1 := N_to_string (r / 100) in
  let d2 := N_to_string ((r / 10) mod 10) in
  let d3 := N_to_string (r mod 10) in
  (if (r mod 10 =? 0) then (if ((r / 10) mod 10 =? 0) then d1 else d1 ++ d2)
   else d1 ++ d2 ++ d3)%N.

(** The text of [${delay / 1000}] for a whole number of milliseconds (the
    decimal expansion is exact for delays below 10^15). *)
Definition div1000_to_string (delay : N) : string :=
  if (delay mod 1000 =? 0)%N then N_to_string (delay / 1000)
  else N_to_string (delay / 1000) ++ "." ++ millis_fraction (delay mod 1000).

End Js.

Import Js.

(** ** Data of the two remote services *)

(** A Linode as the client returns it; [ipv4] holds the text that the
    script interpolates as the address. *)
Record linode := mkLinode {
  id : Z;
  ipv4 : string;
  label : string;
  tags : list string
}.

(** The payload of [createLinode] (lines 98-105). *)
Record create_payload := mkPayload {
  p_region : string;
  p_type : string;
  p_image : string;
  p_root_pass : string;
  p_label : string;
  p_tags : list string
}.

(** A runner of the repository as listed by GitHub: [id] and the names of
    its [labels]. *)
Record runner := mkRunner {
  runner_id : Z;
  runner_labels : list string
}.

(** ** Effects *)

Inductive event :=
| CoreInfo (msg : string)
| CoreError (msg : string)
| CoreSetOutput (name : string) (v : value)
| CoreSetFailed (msg : string)
| ExecSync (cmd : string)
| Sleep (ms : N)
| CreateLinode (p : create_payload)
| GetLinodes
| DeleteLinode (target : value)
| AxiosGet (url bearer : string)
| AxiosPost (url bearer : string)
| AxiosDelete (url bearer : string).

(** The outside world of one invocation.  [getInput name] is what
    [core.getInput(name)] returns: the value of the input as the library
    hands it over, the empty string when the input is absent.
    [execSync_result k cmd] is what
    the child process of the [k]-th call of [execSync] (counting from 0)
    does: [None] when it exits with status 0, an error otherwise.  The
    other oracles give the settled value of the promise: [inr] when it is
    fulfilled, [inl] when it is rejected. *)
Record World := mkWorld {
  getInput : string -> string;
  execSync_result : nat -> string -> option error;
  createLinode_result : create_payload -> error + linode;
  getLinodes_result : error + list linode;
  deleteLinode_result : value -> option error;
  axios_get_result : string -> error + list runner;
  axios_post_result : string -> error + string;
  axios_delete_result : string -> error + (nat * string)
}.

(** The state an invocation threads: the log of events, newest first, and
    [run]'s variable [linodeId] (line 70), which the [try] block assigns
    and the [catch] block reads. *)
Record state := mkState {
  log : list event;
  linodeId : value
}.

Definition init : state := mkState [] VNull.

(** The events in the order they happened. *)
Definition trace (s : state) : list event := rev (log s).

(** A computation either returns or throws. *)
Definition M (A : Type) : Type := state -> state * (error + A).

Definition ret {A} (a : A) : M A := fun s => (s, inr a).

Definition throw {A} (e : error) : M A := fun s => (s, inl e).

Definition bind {A B} (m : M A) (k : A -> M B) : M B :=
  fun s =>
    match m s with
    | (s', inr a) => k a s'
    | (s', inl e) => (s', inl e)
    end.

(** [try { m } catch (e) { h e }]. *)
Definition try_catch {A} (m : M A) (h : error -> M A) : M A :=
  fun s =>
    match m s with
    | (s', inr a) => (s', inr a)
    | (s', inl e) => h e s'
    end.

Notation "x <- m ;; k" := (bind m (fun x => k))
  (at level 61, m at next level, right associativity).
Notation "m ;; k" := (bind m (fun _ => k))
  (at level 61, right associativity).

Definition emit (e : event) : M unit :=
  fun s => (mkState (e :: log s) (linodeId s), inr tt).

Definition set_linodeId (v : value) : M unit :=
  fun s => (mkState (log s) v, inr tt).

Definition get_linodeId : M value := fun s => (s, inr (linodeId s)).

(** Settles a promise. *)
Definition settle {A} (r : error + A) : M A :=
  match r with
  | inr a => ret a
  | inl e => throw e
  end.

Definition settle_unit (r : option error) : M unit :=
  match r with
  | None => ret tt
  | Some e => throw e
  end.

Definition is_exec (e : event) : bool :=
  match e with ExecSync _ => true | _ => false end.

(** How many child processes the log records. *)
Definition count_exec (l : list event) : nat := length (filter is_exec l).

(** A [for] loop of [n] turns whose counter starts at [i], followed by
    [after]; the body answers [Some a] when it executes [return a]. *)
Fixpoint for_loop {A} (n i : nat) (body : nat -> M (option A)) (after : M A) : M A :=
  match n with
  | 0 => after
  | S n' =>
      r <- body i ;;
      match r with
      | Some a => ret a
      | None => for_loop n' (S i) body after
      end
  end.

(** The double quote and the line feed. *)
Definition dquote : string := String (ascii_of_nat 34) EmptyString.
Definition newline : string := String (ascii_of_nat 10) EmptyString.

Section Script.

Variable w : World.

Definition core_info (msg : string) : M unit := emit (CoreInfo msg).
Definition core_error (msg : string) : M unit := emit (CoreError msg).
Definition core_setOutput (name : string) (v : value) : M unit :=
  emit (CoreSetOutput name v).
Definition core_setFailed (msg : string) : M unit := emit (CoreSetFailed msg).

Definition sleep (ms : N) : M unit := emit (Sleep ms).

Definition execSync (cmd : string) : M unit :=
  fun s =>
    (emit (ExecSync cmd) ;;
     settle_unit (execSync_result w (count_exec (log s)) cmd)) s.

Definition createLinode (p : create_payload) : M linode :=
  emit (CreateLinode p) ;; settle (createLinode_result w p).

Definition getLinodes : M (list linode) :=
  emit GetLinodes ;; settle (getLinodes_result w).

Definition deleteLinode (target : value) : M unit :=
  emit (DeleteLinode target) ;; settle_unit (deleteLinode_result w target).

Definition axios_get (url bearer : string) : M (list runner) :=
  emit (AxiosGet url bearer) ;; settle (axios_get_result w url).

Definition axios_post (url bearer : string) : M string :=
  emit (AxiosPost url bearer) ;; settle (axios_post_result w url).

Definition axios_delete (url bearer : string) : M (nat * string) :=
  emit (AxiosDelete url bearer) ;; settle (axios_delete_result w url).

(** The probe command of line 16. *)
Definition ssh_probe_command (ip rootPassword : string) : string :=
  "sshpass -p '" ++ rootPassword ++ "' ssh -o StrictHostKeyChecking=no root@"
  ++ ip ++ " 'echo SSH is ready'".

Definition unable_to_connect (ip : string) (retries : nat) : string :=
  "Unable to connect to " ++ ip ++ " after " ++ nat_to_string retries ++ " attempts.".

(** One turn of the loop of [waitForSSH] (lines 14-21). *)
Definition waitForSSH_attempt (ip rootPassword : string) (retries : nat) (delay : N) (i : nat)
  : M (option bool) :=
  try_catch
    (core_info ("Attempting SSH connection to " ++ ip ++ ", attempt "
                ++ nat_to_string (i + 1) ++ " of " ++ nat_to_string retries) ;;
     execSync (ssh_probe_command ip rootPassword) ;;
     ret (Some true))
    (fun _ =>
       core_info ("SSH not ready yet. Retrying in " ++ div1000_to_string delay
                  ++ " seconds...") ;;
       sleep delay ;;
       ret None).

(** [waitForSSH(ip, rootPassword, retries = 10, delay = 30000)] (lines
    12-24); an argument left out is [None]. *)
Definition waitForSSH (ip rootPassword : string) (retries : option nat) (delay : option N)
  : M bool :=
  let retries := match retries with Some r => r | None => 10 end in
  let delay := match delay with Some d => d | None => 30000%N end in
  for_loop retries 0
    (waitForSSH_attempt ip rootPassword retries delay)
    (throw (Error (unable_to_connect ip retries))).

(** The two endpoints of the GitHub REST API. *)
Definition runners_url (repoOwner repoName : string) : string :=
  "https://api.github.com/repos/" ++ repoOwner ++ "/" ++ repoName ++ "/actions/runners".

Definition failed_to_unregister (status : nat) (statusText : string) : string :=
  "Failed to unregister runner: " ++ nat_to_string status ++ " - " ++ statusText.

(** [runner.labels.some(l => l.name === runnerLabel)]. *)
Definition has_label (runnerLabel : value) (r : runner) : bool :=
  existsb (fun l => strict_eq_str l runnerLabel) (runner_labels r).

(** The [try] block of [unregisterRunner] (lines 28-58). *)
Definition unregisterRunner_try (repoOwner repoName githubToken runnerLabel : value)
  : M unit :=
  let owner := to_string repoOwner in
  let repo := to_string repoName in
  let label := to_string runnerLabel in
  core_info ("Fetching runners for repo " ++ owner ++ "/" ++ repo) ;;
  runners <- axios_get (runners_url owner repo) (to_string githubToken) ;;
  match find (has_label runnerLabel) runners with
  | Some r =>
      core_info ("Found runner with label " ++ label ++ ", unregistering...") ;;
      unregisterResponse <-
        axios_delete (runners_url owner repo ++ "/" ++ Z_to_string (runner_id r))
                     (to_string githubToken) ;;
      let '(status, statusText) := unregisterResponse in
      if status =? 204
      then core_info ("Runner with label " ++ label ++ " unregistered successfully.")
      else core_error (failed_to_unregister status statusText)
  | None => core_info ("Runner with label " ++ label ++ " not found.")
  end.

(** The [catch] block of [unregisterRunner] (lines 59-66): it logs and
    throws the error again. *)
Definition unregisterRunner_catch (e : error) : M unit :=
  match response e with
  | Some (status, statusText) =>
      if status =? 422
      then core_error (failed_to_unregister status statusText)
      else core_error ("Failed to unregister runner: " ++ message e)
  | None => core_error ("Failed to unregister runner: " ++ message e)
  end ;;
  throw e.

Definition unregisterRunner (repoOwner repoName githubToken runnerLabel : value)
  : M unit :=
  try_catch (unregisterRunner_try repoOwner repoName githubToken runnerLabel)
            unregisterRunner_catch.

(** The inputs that the [try] block of [run] reads into constants (lines
    72-82). *)
Record inputs := mkInputs {
  githubToken : string;
  action : string;
  machineId : string;
  searchPhrase : string;
  baseLabel : string;
  rootPassword : string;
  machineType : string;
  image : string;
  tag_list : list string;
  repoOwner : string;
  repoName : string
}.

(** Line 80: the [tags] input split at the commas, each piece trimmed. *)
Definition parse_tags (raw : string) : list string :=
  if nonempty raw then map trim (split "," raw) else [].

Definition read_inputs : inputs :=
  mkInputs (getInput w "github_token")
           (getInput w "action")
           (getInput w "machine_id")
           (getInput w "search_phrase")
           (or_else (getInput w "runner_label") "self-hosted")
           (getInput w "root_password")
           (getInput w "machine_type")
           (getInput w "image")
           (parse_tags (getInput w "tags"))
           (getInput w "organization")
           (getInput w "repo_name").

(** The shell script of lines 131-140. *)
Definition runnerScript (i : inputs) (registrationToken : string) : string :=
  let indent := newline ++ "        " in
  indent ++ "export RUNNER_ALLOW_RUNASROOT=" ++ dquote ++ "1" ++ dquote
  ++ indent ++ "apt-get update"
  ++ indent ++ "apt-get install -y libssl-dev"
  ++ indent ++ "mkdir actions-runner && cd actions-runner"
  ++ indent ++ "curl -o actions-runner-linux-x64-2.317.0.tar.gz -L https://github.com/actions/runner/releases/download/v2.317.0/actions-runner-linux-x64-2.317.0.tar.gz"
  ++ indent ++ "tar xzf ./actions-runner-linux-x64-2.317.0.tar.gz"
  ++ indent ++ "./config.sh --url https://github.com/" ++ repoOwner i ++ "/" ++ repoName i
  ++ " --token " ++ registrationToken ++ " --labels " ++ baseLabel i
  ++ " --name " ++ baseLabel i
  ++ indent ++ "nohup ./run.sh > runner.log 2>&1 &"
  ++ newline ++ "      ".

Definition setup_command (i : inputs) (address registrationToken : string) : string :=
  "sshpass -p '" ++ rootPassword i ++ "' ssh -o StrictHostKeyChecking=no root@"
  ++ address ++ " '" ++ runnerScript i registrationToken ++ "'".

(** The [create] branch (lines 97-151). *)
Definition run_create (i : inputs) : M unit :=
  core_info "Creating new Linode instance..." ;;
  created <- createLinode (mkPayload "us-east" (machineType i) (image i)
                                     (rootPassword i) (baseLabel i) (tag_list i)) ;;
  set_linodeId (VNum (id created)) ;;
  let address := ipv4 created in
  core_setOutput "machine_id" (VNum (id created)) ;;
  core_setOutput "machine_ip" (VStr address) ;;
  core_info ("Linode instance created with ID " ++ Z_to_string (id created)
             ++ " and IP " ++ address) ;;
  waitForSSH address (rootPassword i) None None ;;
  core_info "Requesting GitHub registration token..." ;;
  registrationToken <-
    axios_post (runners_url (repoOwner i) (repoName i) ++ "/registration-token")
               (githubToken i) ;;
  core_info "GitHub registration token received." ;;
  core_info "Setting up GitHub runner..." ;;
  try_catch
    (execSync (setup_command i address registrationToken) ;;
     core_info "GitHub runner setup completed successfully.")
    (fun e => core_error ("Runner setup failed: " ++ message e) ;; throw e) ;;
  core_setOutput "runner_label" (VStr (baseLabel i)).

(** The filter of lines 162-166. *)
Definition matches (phrase : string) (instance : linode) : bool :=
  includes (label instance) phrase
  || String.eqb (label instance) phrase
  || array_includes (tags instance) phrase.

Definition no_match_message (phrase : string) : string :=
  "No Linode instances found matching the search phrase: " ++ phrase.

Definition multiple_match_message (phrase : string) : string :=
  "Multiple Linode instances found matching the search phrase: " ++ phrase.

Definition neither_message : string :=
  "Either machine_id or search_phrase must be provided for destruction".

Definition invalid_action_message : string :=
  "Invalid action. Use " ++ dquote ++ "create" ++ dquote ++ " or "
  ++ dquote ++ "destroy" ++ dquote ++ ".".

Definition identity_message : string :=
  "Both organization and repo_name inputs are required.".

(** Unregistration followed by deletion, as both destroy branches and the
    cleanup write it. *)
Definition unregister_and_delete (i : inputs) (target : value) (done : string)
  : M unit :=
  unregisterRunner (VStr (repoOwner i)) (VStr (repoName i))
                   (VStr (githubToken i)) (VStr (baseLabel i)) ;;
  deleteLinode target ;;
  core_info ("Linode machine " ++ to_string target ++ done).

(** The [destroy] branch (lines 154-181). *)
Definition run_destroy (i : inputs) : M unit :=
  if nonempty (machineId i) then
    core_info ("Destroying Linode instance with ID " ++ machineId i ++ "...") ;;
    unregister_and_delete i (VStr (machineId i)) " destroyed successfully."
  else if nonempty (searchPhrase i) then
    core_info ("Searching for Linode instances matching phrase " ++ dquote
               ++ searchPhrase i ++ dquote ++ "...") ;;
    instances <- getLinodes ;;
    let matchingInstances := filter (matches (searchPhrase i)) instances in
    match matchingInstances with
    | [found] =>
        let foundMachineId := VNum (id found) in
        core_info ("Found single matching instance with ID "
                   ++ to_string foundMachineId ++ ", destroying...") ;;
        unregister_and_delete i foundMachineId " destroyed successfully."
    | [] => throw (Error (no_match_message (searchPhrase i)))
    | _ => throw (Error (multiple_match_message (searchPhrase i)))
    end
  else throw (Error neither_message).

(** The [try] block of [run] (lines 72-184). *)
Definition run_try : M unit :=
  let i := read_inputs in
  core_info ("Action: " ++ action i) ;;
  core_info ("Organization: " ++ repoOwner i) ;;
  core_info ("Repository: " ++ repoName i) ;;
  core_info ("Machine Type: " ++ machineType i) ;;
  core_info ("Image: " ++ image i) ;;
  core_info ("Tags: " ++ join "," (tag_list i)) ;;
  core_info ("Runner Label: " ++ baseLabel i) ;;
  if negb (nonempty (repoOwner i)) || negb (nonempty (repoName i))
  then throw (Error identity_message)
  else if String.eqb (action i) "create" then run_create i
  else if String.eqb (action i) "destroy" then run_destroy i
  else throw (Error invalid_action_message).

(** The bindings in scope in the [catch] block of [run] (lines 185-197):
    its parameter [error], the variable [linodeId] of [run], the
    declarations of the module (lines 1-6, 9, 12, 26 and 69) and the
    names the module wrapper provides.  The constants of lines 72-82
    belong to the [try] block and end with it.  The global object has no
    property with one of their names. *)
Definition catch_scope (err : error) (s : state) : list (string * value) :=
  [ ("error", VObj "Error"); ("linodeId", linodeId s);
    ("core", VObj "core"); ("execSync", VObj "execSync");
    ("setToken", VObj "setToken"); ("getLinodes", VObj "getLinodes");
    ("createLinode", VObj "createLinode"); ("deleteLinode", VObj "deleteLinode");
    ("axios", VObj "axios"); ("util", VObj "util"); ("sleep", VObj "sleep");
    ("linodeToken", VStr (getInput w "linode_token"));
    ("waitForSSH", VObj "waitForSSH");
    ("unregisterRunner", VObj "unregisterRunner"); ("run", VObj "run");
    ("exports", VObj "exports"); ("require", VObj "require");
    ("module", VObj "module"); ("__filename", VObj "__filename");
    ("__dirname", VObj "__dirname") ].

Fixpoint lookup_binding (x : string) (scope : list (string * value)) : option value :=
  match scope with
  | [] => None
  | (y, v) :: rest => if String.eqb x y then Some v else lookup_binding x rest
  end.

(** The value of an identifier in the [catch] block. *)
Definition resolve (err : error) (x : string) : M value :=
  fun s =>
    match lookup_binding x (catch_scope err s) with
    | Some v => (s, inr v)
    | None => (s, inl (ReferenceError x))
    end.

(** The cleanup of lines 189-192.  The arguments of the call of
    [unregisterRunner] are evaluated from left to right before the call. *)
Definition run_cleanup (err : error) (target : value) : M unit :=
  core_info ("Cleaning up Linode instance with ID " ++ to_string target
             ++ " due to error...") ;;
  a1 <- resolve err "repoOwner" ;;
  a2 <- resolve err "repoName" ;;
  a3 <- resolve err "githubToken" ;;
  a4 <- resolve err "baseLabel" ;;
  unregisterRunner a1 a2 a3 a4 ;;
  deleteLinode target ;;
  core_info ("Linode machine " ++ to_string target ++ " destroyed during cleanup.").

(** The [catch] block of [run] (lines 185-197). *)
Definition run_catch (err : error) : M unit :=
  core_setFailed (message err) ;;
  target <- get_linodeId ;;
  if truthy target then
    try_catch (run_cleanup err target)
      (fun cleanupError =>
         core_error ("Failed to destroy Linode machine " ++ to_string target
                     ++ " during cleanup: " ++ message cleanupError))
  else ret tt.

(** [run] (lines 69-198). *)
Definition run : M unit :=
  set_linodeId VNull ;;
  try_catch run_try run_catch.

End Script.

(** One invocation of the action: [run()] of line 200 from the initial
    state.  Before it, the module hands the input [linode_token] to the
    Linode client (lines 9-10), which calls no service. *)
Definition invoke (w : World) : state * (error + unit) := run w init.

(** ** What an observer reads off a log *)

(** The targets of the calls of [deleteLinode]. *)
Fixpoint deletions (l : list event) : list value :=
  match l with
  | [] => []
  | DeleteLinode t :: r => t :: deletions r
  | _ :: r => deletions r
  end.

(** The outputs set through [core.setOutput]. *)
Fixpoint outputs (l : list event) : list (string * value) :=
  match l with
  | [] => []
  | CoreSetOutput n v :: r => (n, v) :: outputs r
  | _ :: r => outputs r
  end.

(** The reasons given to [core.setFailed]. *)
Fixpoint failures (l : list event) : list string :=
  match l with
  | [] => []
  | CoreSetFailed m :: r => m :: failures r
  | _ :: r => failures r
  end.

(** The durations of the timers. *)
Fixpoint sleeps (l : list event) : list N :=
  match l with
  | [] => []
  | Sleep ms :: r => ms :: sleeps r
  | _ :: r => sleeps r
  end.

(** Calls of the Linode API (the provider) and of the GitHub API (the
    registry). *)
Definition is_remote_call (e : event) : bool :=
  match e with
  | CreateLinode _ | GetLinodes | DeleteLinode _
  | AxiosGet _ _ | AxiosPost _ _ | AxiosDelete _ _ => true
  | _ => false
  end.

Definition remote_calls (l : list event) : list event := filter is_remote_call l.

Definition is_list_call (e : event) : bool :=
  match e with GetLinodes => true | _ => false end.

(** The events of an unregistration. *)
Definition is_unregister_event (e : event) : bool :=
  match e with
  | CoreInfo _ | CoreError _ | AxiosGet _ _ | AxiosDelete _ _ => true
  | _ => false
  end.

(** The events [waitForSSH] produces. *)
Definition is_probe_event (e : event) : bool :=
  match e with
  | CoreInfo _ | ExecSync _ | Sleep _ => true
  | _ => false
  end.

(** The error that [unregisterRunner] throws again, as the answers of
    GitHub decide it: the rejection of the list request, or the rejection
    of the [DELETE] request for the first runner that carries the label;
    [None] when the function returns. *)
Definition unregistration_error (w : World) (owner repo runnerLabel : string)
  : option error :=
  match axios_get_result w (runners_url owner repo) with
  | inl e => Some e
  | inr runners =>
      match find (has_label (VStr runnerLabel)) runners with
      | None => None
      | Some r =>
          match axios_delete_result w
                  (runners_url owner repo ++ "/" ++ Z_to_string (runner_id r)) with
          | inl e => Some e
          | inr _ => None
          end
      end
  end.

(** The unregistration of an invocation, with the inputs it reads. *)
Definition invocation_unregistration_error (w : World) : option error :=
  unregistration_error w (getInput w "organization") (getInput w "repo_name")
    (or_else (getInput w "runner_label") "self-hosted").

(** The instance a destroy request resolves to: the [machine_id] input
    when there is one, else the single instance that matches the search
    phrase. *)
Definition resolved_target (w : World) : option value :=
  if nonempty (getInput w "machine_id") then Some (VStr (getInput w "machine_id"))
  else if nonempty (getInput w "search_phrase") then
    match getLinodes_result w with
    | inr instances =>
        match filter (matches (getInput w "search_phrase")) instances with
        | [found] => Some (VNum (id found))
        | _ => None
        end
    | inl _ => None
    end
  else None.

(** The request passes the check of line 92 and asks for [create]. *)
Definition is_create_request (w : World) : bool :=
  nonempty (getInput w "organization") && nonempty (getInput w "repo_name")
  && String.eqb (getInput w "action") "create".

(** The payload a create request sends (lines 98-105). *)
Definition create_payload_of (w : World) : create_payload :=
  mkPayload "us-east" (getInput w "machine_type") (getInput w "image")
            (getInput w "root_password")
            (or_else (getInput w "runner_label") "self-hosted")
            (parse_tags (getInput w "tags")).


(** A string made of white space only. *)
Fixpoint all_white (s : string) : bool :=
  match s with
  | EmptyString => true
  | String c r => is_white c && all_white r
  end.

Fixpoint count_char (c : ascii) (s : string) : nat :=
  match s with
  | EmptyString => 0
  | String d r => (if Ascii.eqb d c then 1 else 0) + count_char c r
  end.

Fixpoint last_char (s : string) : option ascii :=
  match s with
  | EmptyString => None
  | String c EmptyString => Some c
  | String _ r => last_char r
  end.

Definition first_char (s : string) : option ascii :=
  match s with
  | EmptyString => None
  | String c _ => Some c
  end.

Definition white_char (o : option ascii) : bool :=
  match o with Some c => is_white c | None => false end.

(** The lines [run] logs before it looks at the inputs (lines 84-90),
    newest first. *)
Definition preamble (w : World) : list event :=
  let i := read_inputs w in
  [ CoreInfo ("Runner Label: " ++ baseLabel i);
    CoreInfo ("Tags: " ++ join "," (tag_list i));
    CoreInfo ("Image: " ++ image i);
    CoreInfo ("Machine Type: " ++ machineType i);
    CoreInfo ("Repository: " ++ repoName i);
    CoreInfo ("Organization: " ++ repoOwner i);
    CoreInfo ("Action: " ++ action i) ].

(** What [run] does after these lines (lines 92-184). *)
Definition dispatch (w : World) : M unit :=
  let i := read_inputs w in
  if negb (nonempty (repoOwner i)) || negb (nonempty (repoName i))
  then throw (Error identity_message)
  else if String.eqb (action i) "create" then run_create w i
  else if String.eqb (action i) "destroy" then run_destroy w i
  else throw (Error invalid_action_message).

(** ** Worlds for the examples *)

(** The configuration bag: an input that is not given reads as the empty
    string. *)
Fixpoint bag (l : list (string * string)) (name : string) : string :=
  match l with
  | [] => EmptyString
  | (k, v) :: r => if String.eqb k name then v else bag r name
  end.

Definition refused {A} : error + A := inl (Error "connect ECONNREFUSED").

(** A remote shell that refuses the first [n] connections. *)
Definition flaky_shell (n : nat) (k : nat) (cmd : string) : option error :=
  if k <? n then Some (Error "Command failed") else None.

(** A remote shell that never answers. *)
Definition dead_shell (k : nat) (cmd : string) : option error :=
  Some (Error "Command failed").

Definition probe_world (shell : nat -> string -> option error) : World :=
  mkWorld (bag []) shell (fun _ => refused) refused (fun _ => None)
          (fun _ => refused) (fun _ => refused) (fun _ => refused).

Definition vm_12345 : linode := mkLinode 12345 "192.0.2.10" "self-hosted" [].

(** A create request whose instance is provisioned and never becomes
    reachable. *)
Definition unreachable_world : World :=
  mkWorld (bag [("action", "create"); ("organization", "acme"); ("repo_name", "site");
                ("machine_type", "g6-standard-1"); ("image", "linode/ubuntu22.04");
                ("root_password", "s3cret"); ("github_token", "ghp")])
          dead_shell (fun _ => inr vm_12345) refused (fun _ => None)
          (fun _ => inr []) (fun _ => inr "TOKEN") (fun _ => inr (204, "No Content")).

(** An invocation with no input at all. *)
Definition empty_world : World := probe_world dead_shell.

Definition the_runner : runner := mkRunner 5 ["self-hosted"; "linux"].

Definition destroy_bag : list (string * string) :=
  [("action", "destroy"); ("organization", "acme"); ("repo_name", "site");
   ("machine_id", "12345"); ("search_phrase", "ci-runner"); ("github_token", "ghp")].

Definition vm_a : linode := mkLinode 1 "192.0.2.1" "ci-runner-7" [].
Definition vm_b : linode := mkLinode 2 "192.0.2.2" "spare" ["ci-runner-7"; "blue"].
Definition vm_c : linode := mkLinode 3 "192.0.2.3" "db" ["prod"].

(** A destroy request by identifier (a search phrase is given too) where
    GitHub answers the [DELETE] of the runner as [answer] says. *)
Definition destroy_world (answer : error + (nat * string)) : World :=
  mkWorld (bag destroy_bag) dead_shell (fun _ => refused) (inr [vm_a; vm_b; vm_c])
          (fun _ => None) (fun _ => inr [the_runner]) (fun _ => refused)
          (fun _ => answer).

Definition status_500 : error :=
  mkError "Request failed with status code 500" (Some (500, "Internal Server Error")).

(** A destroy request by identifier where the list of runners cannot be
    fetched. *)
Definition offline_registry_world : World :=
  mkWorld (bag destroy_bag) dead_shell (fun _ => refused) (inr [vm_a; vm_b; vm_c])
          (fun _ => None) (fun _ => refused) (fun _ => refused)
          (fun _ => refused).

(** A destroy request by phrase against three instances. *)
Definition phrase_world (phrase : string) : World :=
  mkWorld (bag [("action", "destroy"); ("organization", "acme"); ("repo_name", "site");
                ("search_phrase", phrase); ("github_token", "ghp")])
          dead_shell (fun _ => refused) (inr [vm_a; vm_b; vm_c])
          (fun _ => None) (fun _ => inr [the_runner]) (fun _ => refused)
          (fun _ => inr (204, "No Content")).

(** ** More readings of a log *)

(** The events a request other than [create] can produce. *)
Definition is_destroy_event (e : event) : bool :=
  match e with
  | CoreInfo _ | CoreError _ | CoreSetFailed _ | GetLinodes
  | AxiosGet _ _ | AxiosDelete _ _ | DeleteLinode _ => true
  | _ => false
  end.

(** The remote calls of the destroy branch. *)
Definition is_destroy_call (e : event) : bool :=
  match e with
  | GetLinodes | AxiosGet _ _ | AxiosDelete _ _ | DeleteLinode _ => true
  | _ => false
  end.

(** The request for the list of runners. *)
Definition is_runner_listing (e : event) : bool :=
  match e with AxiosGet _ _ => true | _ => false end.

(** On a log, newest first: every call of [deleteLinode] comes after a
    request for the list of runners. *)
Fixpoint deletions_follow_listing (l : list event) : bool :=
  match l with
  | [] => true
  | DeleteLinode _ :: older =>
      existsb is_runner_listing older && deletions_follow_listing older
  | _ :: older => deletions_follow_listing older
  end.

(** A tag that survives a round trip through the [tags] input: not empty,
    without comma, without white space at either end. *)
Definition clean_tag (t : string) : bool :=
  nonempty t && (count_char "," t =? 0)
  && negb (white_char (first_char t)) && negb (white_char (last_char t)).

(** ** More worlds for the examples *)

(** A create request in a world where every service answers and the
    remote shell behaves as [shell] says. *)
Definition create_world (shell : nat -> string -> option error) : World :=
  mkWorld (bag [("action", "create"); ("organization", "acme"); ("repo_name", "site");
                ("machine_type", "g6-standard-1"); ("image", "linode/ubuntu22.04");
                ("root_password", "s3cret"); ("github_token", "ghp");
                ("tags", "ci, blue")])
          shell (fun _ => inr vm_12345) refused (fun _ => None)
          (fun _ => inr []) (fun _ => inr "TOKEN") (fun _ => inr (204, "No Content")).

Definition windows_runner : runner := mkRunner 4 ["windows"].
Definition second_runner : runner := mkRunner 6 ["self-hosted"].

(** A registry with three runners, two of which carry the label
    [self-hosted], and with no runner at all behind another address. *)
Definition registry_world : World :=
  mkWorld (bag destroy_bag) dead_shell (fun _ => refused) refused (fun _ => None)
          (fun url => if String.eqb url (runners_url "acme" "site")
                      then inr [windows_runner; the_runner; second_runner]
                      else inr [])
          (fun _ => refused) (fun _ => inr (204, "No Content")).

(** A destroy request by identifier where the provider refuses the
    deletion. *)
Definition stuck_delete_world : World :=
  mkWorld (bag destroy_bag) dead_shell (fun _ => refused) refused
          (fun _ => Some (Error "Linode busy")) (fun _ => inr [the_runner])
          (fun _ => refused) (fun _ => inr (204, "No Content")).

(** A create request that the provider rejects. *)
Definition quota_world : World :=
  mkWorld (bag [("action", "create"); ("organization", "acme"); ("repo_name", "site");
                ("machine_type", "g6-standard-1"); ("image", "linode/ubuntu22.04")])
          dead_shell (fun _ => inl (Error "Account limit reached")) refused
          (fun _ => None) (fun _ => inr []) (fun _ => inr "TOKEN")
          (fun _ => inr (204, "No Content")).

(** A create request in a world where GitHub mints no token. *)
Definition tokenless_world : World :=
  mkWorld (bag [("action", "create"); ("organization", "acme"); ("repo_name", "site");
                ("machine_type", "g6-standard-1"); ("image", "linode/ubuntu22.04")])
          (flaky_shell 1) (fun _ => inr vm_12345) refused (fun _ => None)
          (fun _ => inr [])
          (fun _ => inl (mkError "Request failed with status code 403"
                                 (Some (403, "Forbidden"))))
          (fun _ => inr (204, "No Content")).

(** A remote shell that answers the first command and fails the
    second. *)
Definition setup_failing_shell (k : nat) (cmd : string) : option error :=
  if k =? 1 then Some (Error "Command failed: sshpass") else None.

Definition vm_short : linode := mkLinode 10 "192.0.2.20" "runner-1" [].
Definition vm_long : linode := mkLinode 11 "192.0.2.21" "runner-10" [].

(** A destroy request by phrase against the given instances. *)
Definition search_world (phrase : string) (instances : list linode) : World :=
  mkWorld (bag [("action", "destroy"); ("organization", "acme"); ("repo_name", "site");
                ("search_phrase", phrase); ("github_token", "ghp")])
          dead_shell (fun _ => refused) (inr instances)
          (fun _ => None) (fun _ => inr [the_runner]) (fun _ => refused)
          (fun _ => inr (204, "No Content")).

(** ** Tag parsing in the words of its description *)

(** [t] is [piece] trimmed: [piece] without the white space at its two
    ends. *)
Definition trimmed_of (t piece : string) : Prop :=
  exists l r,
    piece = l ++ t ++ r
    /\ all_white l = true /\ all_white r = true
    /\ white_char (first_char t) = false /\ white_char (last_char t) = false.

(** [pieces] are the pieces of [raw] between its commas: they hold no
    comma and, written with a comma between neighbours, give [raw]. *)
Definition pieces_of (raw : string) (pieces : list string) : Prop :=
  pieces <> []
  /\ join "," pieces = raw
  /\ Forall (fun p => count_char "," p = 0) pieces.

(** ** Worlds for the requests that fail the checks *)

(** A world in which no service is reachable, with the given inputs. *)
Definition input_world (l : list (string * string)) : World :=
  mkWorld (bag l) dead_shell (fun _ => refused) refused (fun _ => None)
          (fun _ => refused) (fun _ => refused) (fun _ => refused).

Definition no_repo_world : World :=
  input_world [("action", "create"); ("organization", "acme")].

Definition bad_action_world : World :=
  input_world [("action", "restart"); ("organization", "acme"); ("repo_name", "site")].

Definition targetless_destroy_world : World :=
  input_world [("action", "destroy"); ("organization", "acme"); ("repo_name", "site")].

(** A create request with a machine type and without image, where the
    provider settles the creation as [answer] says and the instance, if
    any, is never reachable. *)
Definition imageless_world (answer : error + linode) : World :=
  mkWorld (bag [("action", "create"); ("organization", "acme"); ("repo_name", "site");
                ("machine_type", "g6-standard-1"); ("root_password", "s3cret");
                ("github_token", "ghp")])
          dead_shell (fun _ => answer) refused (fun _ => None)
          (fun _ => inr []) (fun _ => inr "TOKEN") (fun _ => inr (204, "No Content")).

(** ** Proof tools *)

(** The part of a log [l] that was added to [l0]. *)
Ltac added l l0 :=
  lazymatch l with
  | l0 => constr:(@nil event)
  | ?e :: ?r => let p := added r l0 in constr:(e :: p)
  end.

Ltac name_events l0 :=
  lazymatch goal with
  | |- exists evs, ({| log := ?l; linodeId := _ |}, _) = _ /\ _ =>
      let p := added l l0 in exists p
  end.

(** Reads the constants of lines 72-82 back as inputs. *)
Ltac use_inputs :=
  cbn [read_inputs githubToken action machineId searchPhrase baseLabel rootPassword
       machineType image tag_list repoOwner repoName] in *.

(** ** The readiness probe *)

Lemma count_exec_app (l1 l2 : list event) :
  count_exec (l1 ++ l2)%list = count_exec l1 + count_exec l2.
Proof.
  unfold count_exec. now rewrite filter_app, length_app.
Qed.

Lemma sleeps_app (l1 l2 : list event) :
  sleeps (l1 ++ l2)%list = (sleeps l1 ++ sleeps l2)%list.
Proof.
  induction l1 as [|e l1 IH]; [reflexivity|].
  destruct e; simpl; now rewrite ?IH.
Qed.

Lemma repeat_snoc {A} (a : A) (n : nat) :
  (repeat a n ++ [a])%list = a :: repeat a n.
Proof.
  induction n as [|n IH]; simpl; [reflexivity|now rewrite IH].
Qed.

(** A failing attempt logs twice, runs one child process and sleeps once. *)
Lemma waitForSSH_attempt_fails (w : World) ip pw retries delay i s e :
  execSync_result w (count_exec (log s)) (ssh_probe_command ip pw) = Some e ->
  exists m1 m2,
    waitForSSH_attempt w ip pw retries delay i s
    = (mkState (Sleep delay :: CoreInfo m2
                  :: ExecSync (ssh_probe_command ip pw) :: CoreInfo m1 :: log s)
               (linodeId s), inr None).
Proof.
  intros He. do 2 eexists.
  cbv [waitForSSH_attempt try_catch bind core_info execSync emit sleep ret
       settle_unit throw log linodeId].
  change (count_exec (CoreInfo ?m :: ?l)) with (count_exec l).
  destruct s as [l v]; cbn [log linodeId] in *.
  rewrite He. reflexivity.
Qed.

(** A successful attempt logs once, runs one child process and returns. *)
Lemma waitForSSH_attempt_succeeds (w : World) ip pw retries delay i s :
  execSync_result w (count_exec (log s)) (ssh_probe_command ip pw) = None ->
  exists m1,
    waitForSSH_attempt w ip pw retries delay i s
    = (mkState (ExecSync (ssh_probe_command ip pw) :: CoreInfo m1 :: log s)
               (linodeId s), inr (Some true)).
Proof.
  intros He. eexists.
  cbv [waitForSSH_attempt try_catch bind core_info execSync emit sleep ret
       settle_unit throw log linodeId].
  change (count_exec (CoreInfo ?m :: ?l)) with (count_exec l).
  destruct s as [l v]; cbn [log linodeId] in *.
  rewrite He. reflexivity.
Qed.

Section Probe.

Variable w : World.
Variables ip pw : string.
Variable retries : nat.
Variable delay : N.

Let probe := ssh_probe_command ip pw.
Let body := waitForSSH_attempt w ip pw retries delay.

(** The loop when the next [n] probes fail and the one after succeeds. *)
Lemma for_loop_fail_then_succeed (after : M bool) :
  forall n fuel i s,
    n < fuel ->
    (forall k, k < n -> execSync_result w (count_exec (log s) + k) probe <> None) ->
    execSync_result w (count_exec (log s) + n) probe = None ->
    exists evs,
      for_loop fuel i body after s
      = (mkState (evs ++ log s) (linodeId s), inr true)
      /\ count_exec evs = n + 1
      /\ sleeps evs = repeat delay n
      /\ forallb is_probe_event evs = true.
Proof.
  induction n as [|n IH]; intros fuel i s Hlt Hfail Hok.
  - destruct fuel as [|fuel]; [lia|].
    rewrite Nat.add_0_r in Hok.
    destruct (waitForSSH_attempt_succeeds w ip pw retries delay i s Hok) as [m1 E].
    exists [ExecSync probe; CoreInfo m1].
    simpl for_loop. unfold bind. fold body in E. rewrite E.
    repeat split; reflexivity.
  - destruct fuel as [|fuel]; [lia|].
    destruct (execSync_result w (count_exec (log s)) probe) as [e|] eqn:He.
    2:{ exfalso. apply (Hfail 0); [lia|]. now rewrite Nat.add_0_r. }
    destruct (waitForSSH_attempt_fails w ip pw retries delay i s e He) as (m1 & m2 & E).
    set (s1 := mkState (Sleep delay :: CoreInfo m2 :: ExecSync probe :: CoreInfo m1 :: log s)
                       (linodeId s)) in *.
    assert (Hc : count_exec (log s1) = S (count_exec (log s))) by reflexivity.
    destruct (IH fuel (S i) s1) as (evs & Eloop & Hcount & Hsleep & Hprobe).
    + lia.
    + intros k Hk. rewrite Hc. replace (S (count_exec (log s)) + k)
        with (count_exec (log s) + S k) by lia. apply Hfail. lia.
    + rewrite Hc. replace (S (count_exec (log s)) + n)
        with (count_exec (log s) + S n) by lia. exact Hok.
    + exists (evs ++ [Sleep delay; CoreInfo m2; ExecSync probe; CoreInfo m1])%list.
      simpl for_loop. unfold bind. fold body in E. rewrite E. cbv beta iota.
      unfold s1, probe in Eloop |- *. rewrite Eloop.
      repeat split.
      * cbn [log linodeId]. now rewrite <- app_assoc.
      * rewrite count_exec_app, Hcount. cbn. lia.
      * rewrite sleeps_app, Hsleep. cbn [sleeps]. now rewrite repeat_snoc.
      * rewrite forallb_app, Hprobe. reflexivity.
Qed.

(** The loop when every probe fails: [fuel] attempts, then [after]. *)
Lemma for_loop_always_failing (after : M bool) :
  (forall k, execSync_result w k probe <> None) ->
  forall fuel i s,
    exists evs,
      for_loop fuel i body after s = after (mkState (evs ++ log s) (linodeId s))
      /\ count_exec evs = fuel
      /\ sleeps evs = repeat delay fuel
      /\ forallb is_probe_event evs = true.
Proof.
  intros Hfail. induction fuel as [|fuel IH]; intros i s.
  - exists []. destruct s. repeat split; reflexivity.
  - destruct (execSync_result w (count_exec (log s)) probe) as [e|] eqn:He.
    2:{ exfalso. exact (Hfail _ He). }
    destruct (waitForSSH_attempt_fails w ip pw retries delay i s e He) as (m1 & m2 & E).
    set (s1 := mkState (Sleep delay :: CoreInfo m2 :: ExecSync probe :: CoreInfo m1 :: log s)
                       (linodeId s)) in *.
    destruct (IH (S i) s1) as (evs & Eloop & Hcount & Hsleep & Hprobe).
    exists (evs ++ [Sleep delay; CoreInfo m2; ExecSync probe; CoreInfo m1])%list.
    simpl for_loop. unfold bind. fold body in E. rewrite E. cbv beta iota.
      unfold s1, probe in Eloop |- *. rewrite Eloop.
    repeat split.
    + cbn [log linodeId]. now rewrite <- app_assoc.
    + rewrite count_exec_app, Hcount. cbn. lia.
    + rewrite sleeps_app, Hsleep. cbn [sleeps]. now rewrite repeat_snoc.
    + rewrite forallb_app, Hprobe. reflexivity.
Qed.

(** Whatever the world does, the loop only logs, probes and sleeps, and
    leaves [linodeId] alone. *)
Lemma for_loop_frame (e0 : error) :
  forall fuel i s,
    exists evs r,
      for_loop fuel i body (throw e0) s = (mkState (evs ++ log s) (linodeId s), r)
      /\ forallb is_probe_event evs = true.
Proof.
  induction fuel as [|fuel IH]; intros i s.
  - exists [], (inl e0). destruct s. split; reflexivity.
  - destruct (execSync_result w (count_exec (log s)) probe) as [e|] eqn:He.
    + destruct (waitForSSH_attempt_fails w ip pw retries delay i s e He) as (m1 & m2 & E).
      set (s1 := mkState (Sleep delay :: CoreInfo m2 :: ExecSync probe :: CoreInfo m1 :: log s)
                         (linodeId s)) in *.
      destruct (IH (S i) s1) as (evs & r & Eloop & Hprobe).
      exists (evs ++ [Sleep delay; CoreInfo m2; ExecSync probe; CoreInfo m1])%list, r.
      simpl for_loop. unfold bind. fold body in E. rewrite E. cbv beta iota.
      unfold s1, probe in Eloop |- *. rewrite Eloop.
      split.
      * cbn [log linodeId]. now rewrite <- app_assoc.
      * rewrite forallb_app, Hprobe. reflexivity.
    + destruct (waitForSSH_attempt_succeeds w ip pw retries delay i s He) as [m1 E].
      exists [ExecSync probe; CoreInfo m1], (inr true).
      simpl for_loop. unfold bind. fold body in E. rewrite E.
      split; reflexivity.
Qed.

End Probe.

(** ** Reading a log in pieces *)

Lemma deletions_app (l1 l2 : list event) :
  deletions (l1 ++ l2)%list = (deletions l1 ++ deletions l2)%list.
Proof.
  induction l1 as [|e l1 IH]; [reflexivity|].
  destruct e; simpl; now rewrite ?IH.
Qed.

Lemma outputs_app (l1 l2 : list event) :
  outputs (l1 ++ l2)%list = (outputs l1 ++ outputs l2)%list.
Proof.
  induction l1 as [|e l1 IH]; [reflexivity|].
  destruct e; simpl; now rewrite ?IH.
Qed.

Lemma failures_app (l1 l2 : list event) :
  failures (l1 ++ l2)%list = (failures l1 ++ failures l2)%list.
Proof.
  induction l1 as [|e l1 IH]; [reflexivity|].
  destruct e; simpl; now rewrite ?IH.
Qed.

Lemma remote_calls_app (l1 l2 : list event) :
  remote_calls (l1 ++ l2)%list = (remote_calls l1 ++ remote_calls l2)%list.
Proof. apply filter_app. Qed.

Lemma outputs_rev (l : list event) : outputs (rev l) = rev (outputs l).
Proof.
  induction l as [|e l IH]; [reflexivity|].
  simpl rev. rewrite outputs_app, IH. destruct e; simpl; now rewrite ?app_nil_r.
Qed.

(** The events of a probe are no deletion, output, failure or remote
    call. *)
Lemma probe_events_silent (evs : list event) :
  forallb is_probe_event evs = true ->
  deletions evs = [] /\ outputs evs = [] /\ failures evs = []
  /\ remote_calls evs = [].
Proof.
  induction evs as [|e evs IH]; [now repeat split|].
  simpl forallb. intros H. apply andb_true_iff in H as [He H].
  destruct (IH H) as (H1 & H2 & H3 & H4).
  destruct e; try discriminate He; now repeat split.
Qed.

Lemma unregister_events_silent (evs : list event) :
  forallb is_unregister_event evs = true ->
  deletions evs = [] /\ outputs evs = [] /\ failures evs = []
  /\ existsb is_list_call evs = false /\ count_exec evs = 0.
Proof.
  induction evs as [|e evs IH]; [now repeat split|].
  simpl forallb. intros H. apply andb_true_iff in H as [He H].
  destruct (IH H) as (H1 & H2 & H3 & H4 & H5).
  destruct e; try discriminate He; now repeat split.
Qed.

(** ** Unregistration *)

(** [unregisterRunner] returns or throws as [unregistration_error] says,
    after asking GitHub for the runners; it deletes no instance. *)
Lemma unregisterRunner_spec (w : World) (owner repo token lbl : string) (s : state) :
  exists evs,
    unregisterRunner w (VStr owner) (VStr repo) (VStr token) (VStr lbl) s
    = (mkState (evs ++ log s) (linodeId s),
       match unregistration_error w owner repo lbl with
       | Some e => inl e
       | None => inr tt
       end)
    /\ forallb is_unregister_event evs = true
    /\ In (AxiosGet (runners_url owner repo) token) evs.
Proof.
  destruct s as [l v].
  cbv [unregisterRunner unregisterRunner_try unregisterRunner_catch try_catch bind
       core_info core_error axios_get axios_delete emit settle ret throw to_string
       unregistration_error].
  cbn [log linodeId].
  destruct (axios_get_result w (runners_url owner repo)) as [e|runners].
  - cbn [log linodeId response].
    destruct (response e) as [[st txt]|]; [destruct (st =? 422)|];
      cbn [log linodeId]; name_events l;
      (split; [reflexivity | split; [reflexivity | simpl; tauto]]).
  - cbn [log linodeId].
    destruct (find (has_label (VStr lbl)) runners) as [r|]; cbn [log linodeId].
    + destruct (axios_delete_result w _) as [e|[st txt]]; cbn [log linodeId].
      * destruct (response e) as [[st txt]|]; [destruct (st =? 422)|];
          cbn [log linodeId]; name_events l;
          (split; [reflexivity | split; [reflexivity | simpl; tauto]]).
      * destruct (st =? 204); cbn [log linodeId]; name_events l;
          (split; [reflexivity | split; [reflexivity | simpl; tauto]]).
    + name_events l; (split; [reflexivity | split; [reflexivity | simpl; tauto]]).
Qed.

Lemma nonempty_true (s : string) : nonempty s = true <-> s <> EmptyString.
Proof. destruct s; simpl; split; congruence. Qed.

(** Unregistration and deletion: the instance is deleted exactly when the
    unregistration returns. *)
Lemma unregister_and_delete_spec (w : World) (i : inputs) (target : value)
      (done : string) (s : state) :
  exists evs r,
    unregister_and_delete w i target done s
    = (mkState (evs ++ log s) (linodeId s), r)
    /\ deletions evs
       = match unregistration_error w (repoOwner i) (repoName i) (baseLabel i) with
         | None => [target]
         | Some _ => []
         end
    /\ (forall e, unregistration_error w (repoOwner i) (repoName i) (baseLabel i)
                  = Some e -> r = inl e)
    /\ outputs evs = [] /\ failures evs = []
    /\ existsb is_list_call evs = false /\ count_exec evs = 0
    /\ In (AxiosGet (runners_url (repoOwner i) (repoName i)) (githubToken i)) evs.
Proof.
  destruct (unregisterRunner_spec w (repoOwner i) (repoName i) (githubToken i)
              (baseLabel i) s) as (evs & E & Hev & Hin).
  destruct (unregister_events_silent evs Hev) as (D & O & F & L & C).
  unfold unregister_and_delete, bind. rewrite E.
  destruct (unregistration_error w (repoOwner i) (repoName i) (baseLabel i)) as [e|].
  - exists evs, (inl e). repeat split; auto. intros e' [= ->]. reflexivity.
  - cbv [deleteLinode bind emit settle_unit core_info]. cbn [log linodeId].
    destruct (deleteLinode_result w target) as [e|]; cbv [throw ret].
    + exists (DeleteLinode target :: evs), (inl e).
      repeat split; cbn; auto; congruence.
    + eexists (CoreInfo _ :: DeleteLinode target :: evs), (inr tt).
      repeat split; cbn; auto; congruence.
Qed.

(** ** The frame of [run] *)

Lemma run_try_dispatch (w : World) (s : state) :
  run_try w s = dispatch w (mkState (preamble w ++ log s) (linodeId s)).
Proof. destruct s. reflexivity. Qed.

Lemma invoke_unfold (w : World) :
  invoke w = try_catch (run_try w) (run_catch w) init.
Proof. reflexivity. Qed.

(** No binding of the [catch] block has the name [repoOwner]. *)
Lemma resolve_repoOwner (w : World) (err : error) (s : state) :
  resolve w err "repoOwner" s = (s, inl (ReferenceError "repoOwner")).
Proof. reflexivity. Qed.

(** The [catch] block of [run] marks the invocation failed and calls no
    service: the cleanup stops at the first argument of its first call. *)
Lemma run_catch_spec (w : World) (err : error) (s : state) :
  exists evs,
    run_catch w err s = (mkState (evs ++ log s) (linodeId s), inr tt)
    /\ deletions evs = [] /\ outputs evs = [] /\ remote_calls evs = []
    /\ count_exec evs = 0 /\ existsb is_list_call evs = false
    /\ failures evs = [message err].
Proof.
  destruct s as [l v].
  cbv [run_catch bind core_setFailed emit get_linodeId]. cbn [log linodeId].
  destruct (truthy v).
  - cbv [try_catch run_cleanup bind core_info core_error emit]. cbn [log linodeId].
    rewrite resolve_repoOwner. cbn [log linodeId].
    eexists [CoreError _; CoreInfo _; CoreSetFailed _].
    repeat split.
  - exists [CoreSetFailed (message err)]. repeat split.
Qed.

(** The whole invocation in terms of its [try] block. *)
Lemma invoke_of_try (w : World) (s1 : state) (r : error + unit) :
  run_try w init = (s1, r) ->
  exists evs,
    invoke w = (mkState (evs ++ log s1) (linodeId s1), inr tt)
    /\ deletions evs = [] /\ outputs evs = [] /\ remote_calls evs = []
    /\ count_exec evs = 0 /\ existsb is_list_call evs = false
    /\ failures evs = match r with inl e => [message e] | inr _ => [] end.
Proof.
  intros E. rewrite invoke_unfold. unfold try_catch. rewrite E.
  destruct r as [e|[]].
  - apply run_catch_spec.
  - exists []. destruct s1. repeat split.
Qed.

(** A request that passes the check of line 92 and asks for [destroy]
    runs the destroy branch. *)
Lemma dispatch_destroy (w : World) (s : state) :
  getInput w "action" = "destroy" ->
  getInput w "organization" <> EmptyString ->
  getInput w "repo_name" <> EmptyString ->
  dispatch w s = run_destroy w (read_inputs w) s.
Proof.
  intros Ha Ho Hr. unfold dispatch. use_inputs.
  apply nonempty_true in Ho, Hr. rewrite Ho, Hr, Ha. reflexivity.
Qed.

(** The [try] block of a destroy request with a resolved target. *)
Lemma run_try_destroy_resolved (w : World) (target : value) :
  getInput w "action" = "destroy" ->
  getInput w "organization" <> EmptyString ->
  getInput w "repo_name" <> EmptyString ->
  resolved_target w = Some target ->
  exists evs r,
    run_try w init = (mkState evs VNull, r)
    /\ deletions evs = match invocation_unregistration_error w with
                       | None => [target]
                       | Some _ => []
                       end
    /\ (forall e, invocation_unregistration_error w = Some e -> r = inl e)
    /\ outputs evs = [] /\ failures evs = []
    /\ existsb is_list_call evs = negb (nonempty (getInput w "machine_id"))
    /\ In (AxiosGet (runners_url (getInput w "organization") (getInput w "repo_name"))
                    (getInput w "github_token")) evs.
Proof.
  intros Ha Ho Hr Ht.
  rewrite run_try_dispatch, dispatch_destroy by assumption.
  unfold run_destroy, resolved_target in *. use_inputs.
  destruct (nonempty (getInput w "machine_id")).
  - injection Ht as <-.
    cbv [bind core_info emit]. cbn [log linodeId init].
    match goal with
    | |- context [unregister_and_delete ?w ?i ?t ?d ?s] =>
        destruct (unregister_and_delete_spec w i t d s)
          as (evs & r & E & D & R & O & F & L & C & G)
    end.
    rewrite E. cbn [log linodeId]. use_inputs.
    eexists _, r. split; [reflexivity|].
    unfold invocation_unregistration_error.
    repeat split;
      rewrite ?deletions_app, ?outputs_app, ?failures_app, ?existsb_app, ?D, ?O, ?F, ?L;
      simpl; rewrite ?app_nil_r; auto.
    apply in_or_app. now left.
  - destruct (nonempty (getInput w "search_phrase")); [|discriminate].
    cbv [bind core_info emit getLinodes settle]. cbn [log linodeId init].
    destruct (getLinodes_result w) as [e|instances]; [discriminate|].
    cbv [ret]. cbn [log linodeId].
    destruct (filter (matches (getInput w "search_phrase")) instances)
      as [|found [|other rest]]; try discriminate.
    injection Ht as <-.
    cbv [bind core_info emit]. cbn [log linodeId init].
    match goal with
    | |- context [unregister_and_delete ?w ?i ?t ?d ?s] =>
        destruct (unregister_and_delete_spec w i t d s)
          as (evs & r & E & D & R & O & F & L & C & G)
    end.
    rewrite E. cbn [log linodeId]. use_inputs.
    eexists _, r. split; [reflexivity|].
    unfold invocation_unregistration_error.
    repeat split;
      rewrite ?deletions_app, ?outputs_app, ?failures_app, ?existsb_app, ?D, ?O, ?F, ?L;
      simpl; rewrite ?app_nil_r; auto.
    apply in_or_app. now left.
Qed.

(** The log of an invocation, read through its [try] block. *)
Lemma invoke_log (w : World) (evs1 : list event) (v : value) (r : error + unit) :
  run_try w init = (mkState evs1 v, r) ->
  deletions (log (fst (invoke w))) = deletions evs1
  /\ failures (log (fst (invoke w)))
     = (match r with inl e => [message e] | inr _ => [] end ++ failures evs1)%list
  /\ existsb is_list_call (log (fst (invoke w))) = existsb is_list_call evs1
  /\ remote_calls (log (fst (invoke w))) = remote_calls evs1
  /\ count_exec (log (fst (invoke w))) = count_exec evs1
  /\ outputs (log (fst (invoke w))) = outputs evs1
  /\ (forall e, In e evs1 -> In e (log (fst (invoke w)))).
Proof.
  intros E.
  destruct (invoke_of_try w _ _ E) as (evs & Ei & D & O & R & C & L & F).
  rewrite Ei. cbn [fst log].
  rewrite deletions_app, failures_app, existsb_app, remote_calls_app,
    count_exec_app, outputs_app, D, O, R, C, L, F.
  repeat split. intros e He. apply in_or_app. now right.
Qed.

(** ** Destroy requests *)

(** C2 (as amended): for every destroy request that has resolved a target
    instance, [deleteLinode] is called on the target, once, exactly when
    the unregistration returns: no runner carries the label, or GitHub
    fulfils the [DELETE] request, with status 204 or with another status
    that is only logged.  When the list request or the [DELETE] request
    is rejected, the error is logged and thrown again: the invocation is
    marked failed with that error and no instance is deleted. *)
Theorem destroy_deletes_when_unregistration_returns (w : World) (target : value) :
  getInput w "action" = "destroy" ->
  getInput w "organization" <> EmptyString ->
  getInput w "repo_name" <> EmptyString ->
  resolved_target w = Some target ->
  let s := fst (invoke w) in
  match invocation_unregistration_error w with
  | None => deletions (log s) = [target]
  | Some e => deletions (log s) = [] /\ failures (log s) = [message e]
  end.
Proof.
  intros Ha Ho Hr Ht s. subst s.
  destruct (run_try_destroy_resolved w target Ha Ho Hr Ht)
    as (evs & r & E & D & R & O & F & L & G).
  destruct (invoke_log w evs VNull r E) as (D' & F' & _).
  rewrite D', F', D, F.
  destruct (invocation_unregistration_error w) as [e|]; [|reflexivity].
  rewrite (R e eq_refl). split; reflexivity.
Qed.

(** C3: in a destroy request by phrase, when the instances that match are
    not exactly one, no instance is deleted; with no match the invocation
    fails with the not-found message, with several with the
    ambiguous-match message. *)
Theorem destroy_by_phrase_needs_one_match (w : World) (instances : list linode) :
  getInput w "action" = "destroy" ->
  getInput w "organization" <> EmptyString ->
  getInput w "repo_name" <> EmptyString ->
  getInput w "machine_id" = EmptyString ->
  getInput w "search_phrase" <> EmptyString ->
  getLinodes_result w = inr instances ->
  length (filter (matches (getInput w "search_phrase")) instances) <> 1 ->
  let s := fst (invoke w) in
  deletions (log s) = []
  /\ remote_calls (log s) = [GetLinodes]
  /\ failures (log s)
     = [ if length (filter (matches (getInput w "search_phrase")) instances) =? 0
         then "No Linode instances found matching the search phrase: "
              ++ getInput w "search_phrase"
         else "Multiple Linode instances found matching the search phrase: "
              ++ getInput w "search_phrase" ].
Proof.
  intros Ha Ho Hr Hm Hp Hl Hn s. subst s.
  assert (E : exists e,
    run_try w init
    = (mkState (GetLinodes
                  :: CoreInfo ("Searching for Linode instances matching phrase "
                               ++ dquote ++ getInput w "search_phrase" ++ dquote ++ "...")
                  :: preamble w) VNull, inl (Error e))
    /\ e = if length (filter (matches (getInput w "search_phrase")) instances) =? 0
           then no_match_message (getInput w "search_phrase")
           else multiple_match_message (getInput w "search_phrase")).
  { rewrite run_try_dispatch, dispatch_destroy by assumption.
    unfold run_destroy. use_inputs. apply nonempty_true in Hp. rewrite Hm, Hp.
    cbn [nonempty].
    cbv [bind core_info emit getLinodes settle]. cbn [log linodeId init].
    rewrite Hl. cbv [ret]. cbn [log linodeId]. rewrite app_nil_r.
    destruct (filter (matches (getInput w "search_phrase")) instances)
      as [|found [|other rest]]; cbv [throw].
    - eexists; split; reflexivity.
    - exfalso. now apply Hn.
    - eexists; split; reflexivity. }
  destruct E as (e & E & He).
  destruct (invoke_log w _ _ _ E) as (D' & F' & _ & R' & _).
  rewrite D', F', R'. subst e. repeat split.
Qed.

(** ** Create requests *)

Lemma dispatch_create (w : World) (s : state) :
  is_create_request w = true ->
  dispatch w s = run_create w (read_inputs w) s.
Proof.
  unfold is_create_request, dispatch. use_inputs. intros H.
  apply andb_true_iff in H as [H Ha]. apply andb_true_iff in H as [Ho Hr].
  now rewrite Ho, Hr, Ha.
Qed.

(** The readiness probe with its default arguments, in any world. *)
Lemma waitForSSH_frame (w : World) (ip pw : string) (s : state) :
  exists evs r,
    waitForSSH w ip pw None None s = (mkState (evs ++ log s) (linodeId s), r)
    /\ forallb is_probe_event evs = true.
Proof. unfold waitForSSH. apply for_loop_frame. Qed.

(** The [try] block of a create request: it deletes nothing and marks
    nothing failed; it sets [machine_id] and [machine_ip] once the
    instance exists and [runner_label] at its very end. *)
Lemma run_try_create (w : World) :
  is_create_request w = true ->
  exists evs v r,
    run_try w init = (mkState evs v, r)
    /\ deletions evs = [] /\ failures evs = []
    /\ In (CreateLinode (create_payload_of w)) evs
    /\ outputs evs
       = match createLinode_result w (create_payload_of w) with
         | inl _ => []
         | inr vm =>
             (match r with
              | inr _ => [("runner_label",
                           VStr (or_else (getInput w "runner_label") "self-hosted"))]
              | inl _ => []
              end
              ++ [("machine_ip", VStr (ipv4 vm)); ("machine_id", VNum (id vm))])%list
         end.
Proof.
  intros Hc. rewrite run_try_dispatch, dispatch_create by assumption.
  cbv [run_create bind core_info core_error core_setOutput createLinode emit settle
       set_linodeId try_catch axios_post execSync settle_unit].
  use_inputs. cbn [log linodeId init].
  change (mkPayload _ _ _ _ _ _) with (create_payload_of w).
  destruct (createLinode_result w (create_payload_of w)) as [e|vm];
    cbv [ret throw]; cbn [log linodeId].
  { do 3 eexists. split; [reflexivity|]. repeat split. simpl. tauto. }
  match goal with
  | |- context [waitForSSH ?w ?ip ?pw None None ?s] =>
      destruct (waitForSSH_frame w ip pw s) as (evs & r & E & P)
  end.
  destruct (probe_events_silent evs P) as (D & O & F & R).
  rewrite E. cbn [log linodeId].
  destruct r as [e|b].
  { do 3 eexists. split; [reflexivity|].
    rewrite deletions_app, failures_app, outputs_app, D, O, F.
    repeat split. apply in_or_app. right. simpl. tauto. }
  destruct (axios_post_result w _) as [e|token]; cbn [log linodeId].
  { do 3 eexists. split; [reflexivity|].
    cbn [deletions failures outputs].
    rewrite deletions_app, failures_app, outputs_app, D, O, F.
    repeat split. do 2 right. apply in_or_app. right. simpl. tauto. }
  destruct (execSync_result w _ _) as [e|]; cbn [log linodeId].
  - do 3 eexists. split; [reflexivity|].
    cbn [deletions failures outputs].
    rewrite deletions_app, failures_app, outputs_app, D, O, F.
    repeat split. do 6 right. apply in_or_app. right. simpl. tauto.
  - do 3 eexists. split; [reflexivity|].
    cbn [deletions failures outputs].
    rewrite deletions_app, failures_app, outputs_app, D, O, F.
    repeat split. do 7 right. apply in_or_app. right. simpl. tauto.
Qed.

(** No destroy request sets an output or starts a child process. *)
Lemma run_destroy_quiet (w : World) (i : inputs) (s : state) :
  exists evs r,
    run_destroy w i s = (mkState (evs ++ log s) (linodeId s), r)
    /\ outputs evs = [] /\ failures evs = [] /\ count_exec evs = 0.
Proof.
  destruct s as [l v]. unfold run_destroy.
  destruct (nonempty (machineId i)).
  - cbv [bind core_info emit]. cbn [log linodeId].
    match goal with
    | |- context [unregister_and_delete ?w ?i ?t ?d ?s] =>
        destruct (unregister_and_delete_spec w i t d s)
          as (evs & r & E & D & R & O & F & L & C & G)
    end.
    rewrite E. cbn [log linodeId].
    eexists (evs ++ [CoreInfo _])%list, r. rewrite <- app_assoc.
    split; [reflexivity|].
    rewrite outputs_app, failures_app, count_exec_app, O, F, C. repeat split.
  - destruct (nonempty (searchPhrase i)).
    2:{ exists [], (inl (Error neither_message)). repeat split. }
    cbv [bind core_info emit getLinodes settle]. cbn [log linodeId].
    destruct (getLinodes_result w) as [e|instances]; cbv [ret throw]; cbn [log linodeId].
    { eexists [GetLinodes; CoreInfo _], _. repeat split. }
    destruct (filter (matches (searchPhrase i)) instances) as [|found [|other rest]].
    + eexists [GetLinodes; CoreInfo _], _. repeat split.
    + cbv [bind core_info emit]. cbn [log linodeId].
      match goal with
      | |- context [unregister_and_delete ?w ?i ?t ?d ?s] =>
          destruct (unregister_and_delete_spec w i t d s)
            as (evs & r & E & D & R & O & F & L & C & G)
      end.
      rewrite E. cbn [log linodeId].
      eexists (evs ++ [CoreInfo _; GetLinodes; CoreInfo _])%list, r.
      rewrite <- app_assoc.
      split; [reflexivity|].
      rewrite outputs_app, failures_app, count_exec_app, O, F, C. repeat split.
    + eexists [GetLinodes; CoreInfo _], _. repeat split.
Qed.

(** The [try] block of a request that is no valid create request sets no
    output. *)
Lemma run_try_not_create (w : World) :
  is_create_request w = false ->
  exists evs v r,
    run_try w init = (mkState evs v, r) /\ outputs evs = [] /\ failures evs = [].
Proof.
  intros Hc. rewrite run_try_dispatch. unfold is_create_request, dispatch in *.
  use_inputs. cbn [log linodeId init].
  destruct (nonempty (getInput w "organization")); cbn [negb orb andb] in *.
  2:{ do 3 eexists. split; [reflexivity|]. split; reflexivity. }
  destruct (nonempty (getInput w "repo_name")); cbn [negb orb andb] in *.
  2:{ do 3 eexists. split; [reflexivity|]. split; reflexivity. }
  rewrite Hc.
  destruct (String.eqb (getInput w "action") "destroy").
  2:{ do 3 eexists. split; [reflexivity|]. split; reflexivity. }
  match goal with
  | |- context [run_destroy ?w ?i ?s] =>
      destruct (run_destroy_quiet w i s) as (evs & r & E & O & F & C)
  end.
  rewrite E. do 3 eexists. split; [reflexivity|].
  rewrite outputs_app, failures_app, O, F. split; reflexivity.
Qed.


(** Whatever the world does, a create request deletes no instance: the
    cleanup after a failure stops before it reaches [deleteLinode]. *)
Lemma create_never_deletes (w : World) :
  is_create_request w = true ->
  deletions (log (fst (invoke w))) = [].
Proof.
  intros Hc.
  destruct (run_try_create w Hc) as (evs & v & r & E & D & _).
  destruct (invoke_log w evs v r E) as (D' & _).
  now rewrite D'.
Qed.

(** C1 (what the code does at the failing input): the instance 12345 is
    created, the ten probes fail, and the cleanup logs a reference error
    without calling [deleteLinode]; the error reported is the one of the
    probe. *)
Theorem cleanup_stops_before_deleteLinode :
  let s := fst (invoke unreachable_world) in
  outputs (trace s)
  = [("machine_id", VNum 12345); ("machine_ip", VStr "192.0.2.10")]
  /\ count_exec (log s) = 10
  /\ failures (log s) = ["Unable to connect to 192.0.2.10 after 10 attempts."]
  /\ deletions (log s) = []
  /\ hd_error (log s)
     = Some (CoreError
               "Failed to destroy Linode machine 12345 during cleanup: repoOwner is not defined").
Proof. vm_compute. repeat split. Qed.

(** ** Input resolution *)

(** C7 (as amended): the invocation fails before any call of the provider
    or the registry, and before any child process, when the organization
    or the repository name is absent, when the action is neither [create]
    nor [destroy], and when a destroy request has neither machine
    identifier nor search phrase.  The machine type and the image of a
    create request are not checked. *)
Theorem invalid_request_fails_before_any_call (w : World) :
  getInput w "organization" = EmptyString
  \/ getInput w "repo_name" = EmptyString
  \/ (getInput w "action" <> "create" /\ getInput w "action" <> "destroy")
  \/ (getInput w "action" = "destroy" /\ getInput w "machine_id" = EmptyString
      /\ getInput w "search_phrase" = EmptyString) ->
  let s := fst (invoke w) in
  remote_calls (log s) = [] /\ count_exec (log s) = 0 /\ outputs (log s) = []
  /\ failures (log s)
     = [ if negb (nonempty (getInput w "organization"))
            || negb (nonempty (getInput w "repo_name"))
         then "Both organization and repo_name inputs are required."
         else if String.eqb (getInput w "action") "destroy"
         then "Either machine_id or search_phrase must be provided for destruction"
         else invalid_action_message ].
Proof.
  intros H s. subst s.
  assert (E : run_try w init
    = (mkState (preamble w) VNull,
       inl (Error (if negb (nonempty (getInput w "organization"))
                      || negb (nonempty (getInput w "repo_name"))
                   then identity_message
                   else if String.eqb (getInput w "action") "destroy"
                   then neither_message
                   else invalid_action_message)))).
  { rewrite run_try_dispatch. unfold dispatch. use_inputs.
    cbn [log linodeId init]. rewrite app_nil_r.
    destruct (nonempty (getInput w "organization")) eqn:Ho; [|reflexivity].
    destruct (nonempty (getInput w "repo_name")) eqn:Hr; [|reflexivity].
    cbn [negb orb].
    apply nonempty_true in Ho, Hr.
    destruct H as [H|[H|[[Hc Hd]|(Ha & Hm & Hp)]]]; try contradiction.
    - apply String.eqb_neq in Hc, Hd. now rewrite Hc, Hd.
    - rewrite Ha. cbn [String.eqb Ascii.eqb Bool.eqb].
      unfold run_destroy. use_inputs. now rewrite Hm, Hp. }
  destruct (invoke_log w _ _ _ E) as (_ & F' & _ & R' & C' & O' & _).
  rewrite F', R', C', O'. repeat split.
Qed.

(** ** The search policy *)

Lemma prefix_spec (p s : string) :
  String.prefix p s = true <-> exists post, s = p ++ post.
Proof.
  revert s. induction p as [|c p IH]; intros s.
  - split; [intros _; now exists s | intros _; now destruct s].
  - destruct s as [|d s]; simpl.
    + split; [discriminate | intros [post H]; discriminate].
    + destruct (ascii_dec c d) as [->|Hn].
      * rewrite IH. split; intros [post H]; exists post; congruence.
      * split; [discriminate | intros [post H]; congruence].
Qed.

Lemma includes_spec (s sub : string) :
  includes s sub = true <-> exists pre post, s = pre ++ sub ++ post.
Proof.
  induction s as [|c s IH].
  - change (includes EmptyString sub) with (String.prefix sub EmptyString || false).
    rewrite orb_false_r, prefix_spec. split.
    + intros [post H]. now exists EmptyString, post.
    + intros (pre & post & H). destruct pre; [now exists post|discriminate].
  - change (includes (String c s) sub)
      with (String.prefix sub (String c s) || includes s sub).
    rewrite orb_true_iff, prefix_spec, IH. split.
    + intros [[post H]|(pre & post & H)].
      * now exists EmptyString, post.
      * exists (String c pre), post. simpl. now rewrite H.
    + intros (pre & post & H). destruct pre as [|d pre].
      * left. now exists post.
      * right. exists pre, post. simpl in H. congruence.
Qed.

Lemma array_includes_spec (l : list string) (x : string) :
  array_includes l x = true <-> In x l.
Proof.
  unfold array_includes. rewrite existsb_exists. split.
  - intros (y & Hy & E). apply String.eqb_eq in E. now subst.
  - intros H. exists x. split; [assumption|apply String.eqb_refl].
Qed.

(** C4: an instance matches a phrase exactly when its label contains the
    phrase, or its label is the phrase, or the phrase is one of its
    tags. *)
Theorem matches_iff (phrase : string) (instance : linode) :
  matches phrase instance = true
  <-> (exists pre post, label instance = pre ++ phrase ++ post)
      \/ label instance = phrase
      \/ In phrase (tags instance).
Proof.
  unfold matches.
  now rewrite !orb_true_iff, includes_spec, String.eqb_eq, array_includes_spec, or_assoc.
Qed.

(** ** The readiness probe: the two outcomes *)

(** C5: when the next [n] probes fail and the one after succeeds, with
    [n] below the number of attempts allowed, the probe returns [true]
    after [n + 1] child processes and [n] sleeps, each of the interval
    given. *)
Theorem waitForSSH_succeeds_after_failures
        (w : World) (ip pw : string) (maxAttempts : nat) (interval : N)
        (n : nat) (s : state) :
  n < maxAttempts ->
  (forall k, k < n ->
     execSync_result w (count_exec (log s) + k) (ssh_probe_command ip pw) <> None) ->
  execSync_result w (count_exec (log s) + n) (ssh_probe_command ip pw) = None ->
  exists evs,
    waitForSSH w ip pw (Some maxAttempts) (Some interval) s
    = (mkState (evs ++ log s) (linodeId s), inr true)
    /\ count_exec evs = n + 1
    /\ sleeps evs = repeat interval n.
Proof.
  intros Hlt Hfail Hok. unfold waitForSSH.
  destruct (for_loop_fail_then_succeed w ip pw maxAttempts interval
              (throw (Error (unable_to_connect ip maxAttempts)))
              n maxAttempts 0 s Hlt Hfail Hok) as (evs & E & C & S & _).
  exists evs. auto.
Qed.

Lemma waitForSSH_succeeds_after_failures_witness :
  exists evs,
    waitForSSH (probe_world (flaky_shell 2)) "192.0.2.10" "s3cret"
               (Some 10) (Some 30000%N) init
    = (mkState (evs ++ log init) (linodeId init), inr true)
    /\ count_exec evs = 2 + 1
    /\ sleeps evs = repeat 30000%N 2.
Proof.
  apply (waitForSSH_succeeds_after_failures
           (probe_world (flaky_shell 2)) "192.0.2.10" "s3cret" 10 30000%N 2 init).
  - lia.
  - intros k Hk. simpl. unfold flaky_shell.
    destruct (Nat.ltb_spec k 2); [discriminate | lia].
  - reflexivity.
Defined.

(** C6: when every probe fails, the probe runs as many child processes as
    attempts are allowed, 10 unless the caller says otherwise, sleeps the
    interval after each, 30000 ms unless the caller says otherwise, and
    throws an error whose message names the address and the number of
    attempts. *)
Theorem waitForSSH_gives_up_after_maxAttempts
        (w : World) (ip pw : string) (retries : option nat) (delay : option N)
        (s : state) :
  (forall k, execSync_result w k (ssh_probe_command ip pw) <> None) ->
  let maxAttempts := match retries with Some r => r | None => 10 end in
  let interval := match delay with Some d => d | None => 30000%N end in
  exists evs,
    waitForSSH w ip pw retries delay s
    = (mkState (evs ++ log s) (linodeId s),
       inl (Error ("Unable to connect to " ++ ip ++ " after "
                   ++ nat_to_string maxAttempts ++ " attempts.")))
    /\ count_exec evs = maxAttempts
    /\ sleeps evs = repeat interval maxAttempts.
Proof.
  intros Hfail maxAttempts interval. unfold waitForSSH.
  fold maxAttempts interval.
  destruct (for_loop_always_failing w ip pw maxAttempts interval
              (throw (Error (unable_to_connect ip maxAttempts)))
              Hfail maxAttempts 0 s) as (evs & E & C & S & _).
  exists evs. rewrite E. auto.
Qed.

Lemma waitForSSH_gives_up_after_maxAttempts_witness :
  exists evs,
    waitForSSH (probe_world dead_shell) "192.0.2.10" "s3cret" None None init
    = (mkState (evs ++ log init) (linodeId init),
       inl (Error "Unable to connect to 192.0.2.10 after 10 attempts."))
    /\ count_exec evs = 10
    /\ sleeps evs = repeat 30000%N 10.
Proof.
  apply (waitForSSH_gives_up_after_maxAttempts
           (probe_world dead_shell) "192.0.2.10" "s3cret" None None init).
  intros k. discriminate.
Defined.

(** ** Tag parsing *)

Lemma split_length (sep : ascii) (s : string) :
  length (split sep s) = S (count_char sep s).
Proof.
  induction s as [|c s IH]; [reflexivity|].
  simpl. destruct (Ascii.eqb c sep); simpl; [now rewrite IH|].
  destruct (split sep s); simpl in *; congruence.
Qed.

Lemma trimStart_first (s : string) :
  white_char (first_char (trimStart s)) = false.
Proof.
  induction s as [|c s IH]; [reflexivity|].
  simpl. destruct (is_white c) eqn:E; [exact IH|]. simpl. exact E.
Qed.

Lemma trimEnd_last (s : string) :
  white_char (last_char (trimEnd s)) = false.
Proof.
  induction s as [|c s IH]; [reflexivity|].
  simpl. destruct (trimEnd s) as [|d r] eqn:E.
  - destruct (is_white c) eqn:W; [reflexivity|]. simpl. exact W.
  - exact IH.
Qed.

Lemma trimEnd_first (s : string) :
  trimEnd s = EmptyString \/ first_char (trimEnd s) = first_char s.
Proof.
  destruct s as [|c s]; [now left|].
  simpl. destruct (trimEnd s); [|now right].
  destruct (is_white c); [now left|now right].
Qed.

Lemma trimStart_empty (s : string) :
  trimStart s = EmptyString <-> all_white s = true.
Proof.
  induction s as [|c s IH]; [now split|].
  simpl. destruct (is_white c); simpl; [exact IH|]. split; discriminate.
Qed.

Lemma trimEnd_empty (s : string) :
  trimEnd s = EmptyString <-> all_white s = true.
Proof.
  induction s as [|c s IH]; [now split|].
  simpl. destruct (trimEnd s) as [|d r].
  - destruct (is_white c); simpl.
    + split; [intros _; now apply IH | reflexivity].
    + split; discriminate.
  - split; [discriminate|]. intros H. apply andb_true_iff in H as [_ H].
    apply IH in H. discriminate.
Qed.

Lemma all_white_trimStart (s : string) :
  all_white (trimStart s) = all_white s.
Proof.
  induction s as [|c s IH]; [reflexivity|].
  simpl. destruct (is_white c) eqn:E; [exact IH|]. simpl. now rewrite E.
Qed.

Lemma trim_empty (s : string) : trim s = EmptyString <-> all_white s = true.
Proof. unfold trim. now rewrite trimEnd_empty, all_white_trimStart. Qed.

(** A trimmed string neither starts nor ends with white space. *)
Lemma trim_ends (s : string) :
  white_char (first_char (trim s)) = false
  /\ white_char (last_char (trim s)) = false.
Proof.
  unfold trim. split; [|apply trimEnd_last].
  destruct (trimEnd_first (trimStart s)) as [E|E]; rewrite E;
    [reflexivity|apply trimStart_first].
Qed.

(** C8 (counterexample): two commas in a row give an empty
    token, and so does a comma at the end. *)
Lemma parse_tags_keeps_empty_tokens :
  parse_tags "a,,b" = ["a"; EmptyString; "b"]
  /\ parse_tags "a," = ["a"; EmptyString]
  /\ In EmptyString (parse_tags "a,,b").
Proof. repeat split. simpl. tauto. Qed.

(** ** The claims at concrete requests *)

(** C2 (counterexample): the target is resolved and GitHub
    rejects the [DELETE] of the runner with status 500, or the list of
    runners cannot be fetched; the invocation fails with that error and
    no instance is deleted. *)
Lemma destroy_aborts_when_unregistration_is_rejected :
  (let w := destroy_world (inl status_500) in
   let s := fst (invoke w) in
   resolved_target w = Some (VStr "12345")
   /\ hd_error (remote_calls (log s))
      = Some (AxiosDelete "https://api.github.com/repos/acme/site/actions/runners/5" "ghp")
   /\ deletions (log s) = []
   /\ failures (log s) = ["Request failed with status code 500"])
  /\ (let w := offline_registry_world in
      let s := fst (invoke w) in
      resolved_target w = Some (VStr "12345")
      /\ deletions (log s) = []
      /\ failures (log s) = ["connect ECONNREFUSED"]).
Proof. vm_compute. repeat split. Qed.

Lemma destroy_deletes_when_unregistration_returns_witness :
  deletions (log (fst (invoke (destroy_world (inr (200, "OK"))))))
  = [VStr "12345"].
Proof.
  exact (destroy_deletes_when_unregistration_returns
           (destroy_world (inr (200, "OK"))) (VStr "12345")
           eq_refl ltac:(discriminate) ltac:(discriminate) eq_refl).
Defined.

Lemma destroy_by_phrase_needs_one_match_witness :
  let s := fst (invoke (phrase_world "ci-runner-7")) in
  deletions (log s) = []
  /\ remote_calls (log s) = [GetLinodes]
  /\ failures (log s)
     = ["Multiple Linode instances found matching the search phrase: ci-runner-7"].
Proof.
  exact (destroy_by_phrase_needs_one_match
           (phrase_world "ci-runner-7") [vm_a; vm_b; vm_c]
           eq_refl ltac:(discriminate) ltac:(discriminate) eq_refl
           ltac:(discriminate) eq_refl ltac:(discriminate)).
Defined.


(** * Further properties of the script *)

Lemma append_assoc (a b c : string) : (a ++ b) ++ c = a ++ b ++ c.
Proof. induction a as [|x a IH]; simpl; [reflexivity|now rewrite IH]. Qed.

Lemma append_nil_r (a : string) : a ++ EmptyString = a.
Proof. induction a as [|x a IH]; simpl; [reflexivity|now rewrite IH]. Qed.

(** ** [unregisterRunner] on its own *)

Lemma has_label_spec (lbl : string) (r : runner) :
  has_label (VStr lbl) r = true <-> In lbl (runner_labels r).
Proof.
  unfold has_label. rewrite existsb_exists. split.
  - intros (l & Hl & E). simpl in E. apply String.eqb_eq in E. now subst.
  - intros H. exists lbl. split; [assumption|apply String.eqb_refl].
Qed.

Lemma find_none_all {A} (f : A -> bool) (l : list A) :
  (forall x, In x l -> f x = false) -> find f l = None.
Proof.
  induction l as [|a l IH]; intros H; [reflexivity|].
  simpl. rewrite (H a (or_introl eq_refl)). apply IH. intros x Hx. apply H. now right.
Qed.

Lemma find_first {A} (f : A -> bool) (before after : list A) (x : A) :
  (forall y, In y before -> f y = false) -> f x = true ->
  find f (before ++ x :: after) = Some x.
Proof.
  induction before as [|a before IH]; intros Hb Hx; simpl.
  - now rewrite Hx.
  - rewrite (Hb a (or_introl eq_refl)). apply IH; [|assumption].
    intros y Hy. apply Hb. now right.
Qed.

Lemma has_label_false (lbl : string) (r : runner) :
  ~ In lbl (runner_labels r) -> has_label (VStr lbl) r = false.
Proof.
  intros H. destruct (has_label (VStr lbl) r) eqn:E; [|reflexivity].
  apply has_label_spec in E. contradiction.
Qed.

(** X1: when no listed runner carries the label (an empty list included),
    [unregisterRunner] asks for the list, sends no [DELETE], logs no error
    and returns. *)
Theorem unregisterRunner_without_runner
        (w : World) (owner repo token lbl : string) (runners : list runner)
        (s : state) :
  axios_get_result w (runners_url owner repo) = inr runners ->
  (forall r, In r runners -> ~ In lbl (runner_labels r)) ->
  unregisterRunner w (VStr owner) (VStr repo) (VStr token) (VStr lbl) s
  = (mkState (CoreInfo ("Runner with label " ++ lbl ++ " not found.")
                :: AxiosGet (runners_url owner repo) token
                :: CoreInfo ("Fetching runners for repo " ++ owner ++ "/" ++ repo)
                :: log s)
             (linodeId s), inr tt).
Proof.
  intros Hg Hn.
  assert (F : find (has_label (VStr lbl)) runners = None).
  { apply find_none_all. intros r Hr. apply has_label_false. now apply Hn. }
  destruct s as [l v].
  cbv [unregisterRunner unregisterRunner_try try_catch bind core_info axios_get
       emit settle ret to_string].
  cbn [log linodeId]. rewrite Hg. cbn [log linodeId]. rewrite F. reflexivity.
Qed.

Lemma unregisterRunner_without_runner_witness :
  unregisterRunner registry_world (VStr "acme") (VStr "site") (VStr "ghp")
                   (VStr "macos") init
  = (mkState [ CoreInfo "Runner with label macos not found.";
               AxiosGet "https://api.github.com/repos/acme/site/actions/runners" "ghp";
               CoreInfo "Fetching runners for repo acme/site" ]
             VNull, inr tt).
Proof.
  apply (unregisterRunner_without_runner registry_world "acme" "site" "ghp" "macos"
           [windows_runner; the_runner; second_runner] init).
  - reflexivity.
  - intros r [<-|[<-|[<-|[]]]]; simpl; intuition discriminate.
Defined.

(** X2: when several listed runners carry the label, [unregisterRunner] sends
    one [DELETE], for the first of them in the order of the list. *)
Theorem unregisterRunner_first_match
        (w : World) (owner repo token lbl : string)
        (before after : list runner) (r : runner) (s : state) :
  axios_get_result w (runners_url owner repo) = inr (before ++ r :: after)%list ->
  (forall r', In r' before -> ~ In lbl (runner_labels r')) ->
  In lbl (runner_labels r) ->
  exists evs,
    fst (unregisterRunner w (VStr owner) (VStr repo) (VStr token) (VStr lbl) s)
    = mkState (evs ++ log s) (linodeId s)
    /\ remote_calls (rev evs)
       = [ AxiosGet (runners_url owner repo) token;
           AxiosDelete (runners_url owner repo ++ "/" ++ Z_to_string (runner_id r))
                       token ].
Proof.
  intros Hg Hb Hr.
  assert (F : find (has_label (VStr lbl)) (before ++ r :: after) = Some r).
  { apply find_first; [|now apply has_label_spec].
    intros y Hy. apply has_label_false. now apply Hb. }
  destruct s as [l v].
  cbv [unregisterRunner unregisterRunner_try unregisterRunner_catch try_catch bind
       core_info core_error axios_get axios_delete emit settle ret throw to_string].
  cbn [log linodeId]. rewrite Hg. cbn [log linodeId]. rewrite F.
  cbn [log linodeId].
  destruct (axios_delete_result w _) as [e|[st txt]]; cbn [log linodeId].
  - destruct (response e) as [[st txt]|]; [destruct (st =? 422)|];
      cbn [fst]; eexists [_; _; _; _; _]; split; reflexivity.
  - destruct (st =? 204); cbn [fst]; eexists [_; _; _; _; _]; split; reflexivity.
Qed.

Lemma unregisterRunner_first_match_witness :
  exists evs,
    fst (unregisterRunner registry_world (VStr "acme") (VStr "site") (VStr "ghp")
                          (VStr "self-hosted") init)
    = mkState (evs ++ log init) (linodeId init)
    /\ remote_calls (rev evs)
       = [ AxiosGet "https://api.github.com/repos/acme/site/actions/runners" "ghp";
           AxiosDelete "https://api.github.com/repos/acme/site/actions/runners/5" "ghp" ].
Proof.
  apply (unregisterRunner_first_match registry_world "acme" "site" "ghp" "self-hosted"
           [windows_runner] [second_runner] the_runner init).
  - reflexivity.
  - intros r' [<-|[]]; simpl; intuition discriminate.
  - simpl. tauto.
Defined.

(** X3: an error that [unregisterRunner] throws is the rejection of one of
    its two requests, unchanged, and the last thing logged before it is
    one error line: status and status text for a 422, the message of the
    error otherwise. *)
Theorem unregisterRunner_rethrows
        (w : World) (owner repo token lbl : string) (s s' : state) (e : error) :
  unregisterRunner w (VStr owner) (VStr repo) (VStr token) (VStr lbl) s = (s', inl e) ->
  (axios_get_result w (runners_url owner repo) = inl e
   \/ exists r, axios_delete_result w
                  (runners_url owner repo ++ "/" ++ Z_to_string (runner_id r)) = inl e)
  /\ hd_error (log s')
     = Some (CoreError
               ("Failed to unregister runner: "
                ++ match response e with
                   | Some (status, statusText) =>
                       if status =? 422
                       then nat_to_string status ++ " - " ++ statusText
                       else message e
                   | None => message e
                   end)).
Proof.
  destruct s as [l v].
  cbv [unregisterRunner unregisterRunner_try unregisterRunner_catch try_catch bind
       core_info core_error axios_get axios_delete emit settle ret throw to_string
       failed_to_unregister].
  cbn [log linodeId].
  destruct (axios_get_result w (runners_url owner repo)) as [e0|runners];
    cbn [log linodeId].
  - destruct (response e0) as [[st txt]|] eqn:R; [destruct (st =? 422) eqn:T|];
      cbn [log linodeId]; intros [= <- <-]; cbn [log]; rewrite R, ?T; auto.
  - destruct (find (has_label (VStr lbl)) runners) as [r|]; cbn [log linodeId].
    + destruct (axios_delete_result w _) as [e0|[st txt]] eqn:D; cbn [log linodeId].
      * destruct (response e0) as [[st txt]|] eqn:R; [destruct (st =? 422) eqn:T|];
          cbn [log linodeId]; intros [= <- <-]; cbn [log]; rewrite R, ?T;
          (split; [right; now exists r | reflexivity]).
      * destruct (st =? 204); cbn [log linodeId]; discriminate.
    + discriminate.
Qed.

Lemma unregisterRunner_rethrows_witness :
  (axios_get_result (destroy_world (inl status_500))
                    (runners_url "acme" "site") = inl status_500
   \/ exists r, axios_delete_result (destroy_world (inl status_500))
                  (runners_url "acme" "site" ++ "/" ++ Z_to_string (runner_id r))
                = inl status_500)
  /\ hd_error
       (log (fst (unregisterRunner (destroy_world (inl status_500)) (VStr "acme")
                                   (VStr "site") (VStr "ghp") (VStr "self-hosted") init)))
     = Some (CoreError "Failed to unregister runner: Request failed with status code 500").
Proof.
  exact (unregisterRunner_rethrows (destroy_world (inl status_500))
           "acme" "site" "ghp" "self-hosted" init _ status_500 eq_refl).
Defined.

(** ** The readiness probe in any world *)

Lemma for_loop_bounded (w : World) (ip pw : string) (retries : nat) (delay : N)
      (e0 : error) :
  forall fuel i s,
    exists evs r,
      for_loop fuel i (waitForSSH_attempt w ip pw retries delay) (throw e0) s
      = (mkState (evs ++ log s) (linodeId s), r)
      /\ forallb is_probe_event evs = true
      /\ count_exec evs <= fuel
      /\ match r with
         | inr b => b = true /\ sleeps evs = repeat delay (count_exec evs - 1)
                    /\ 1 <= count_exec evs
         | inl e => e = e0 /\ sleeps evs = repeat delay fuel /\ count_exec evs = fuel
         end.
Proof.
  induction fuel as [|fuel IH]; intros i s.
  - exists [], (inl e0). destruct s. repeat split; auto.
  - destruct (execSync_result w (count_exec (log s)) (ssh_probe_command ip pw))
      as [e|] eqn:He.
    + destruct (waitForSSH_attempt_fails w ip pw retries delay i s e He)
        as (m1 & m2 & E).
      destruct (IH (S i)
                  (mkState (Sleep delay :: CoreInfo m2
                              :: ExecSync (ssh_probe_command ip pw) :: CoreInfo m1 :: log s)
                           (linodeId s)))
        as (evs & r & Eloop & Hprobe & Hle & Hr).
      exists (evs ++ [Sleep delay; CoreInfo m2; ExecSync (ssh_probe_command ip pw);
                      CoreInfo m1])%list, r.
      simpl for_loop. unfold bind. rewrite E. cbv beta iota. rewrite Eloop.
      cbn [log linodeId]. rewrite <- app_assoc, forallb_app, count_exec_app, sleeps_app, Hprobe.
      change (count_exec [Sleep delay; CoreInfo m2; ExecSync (ssh_probe_command ip pw);
                          CoreInfo m1]) with 1.
      change (sleeps [Sleep delay; CoreInfo m2; ExecSync (ssh_probe_command ip pw);
                      CoreInfo m1]) with [delay].
      repeat split; try lia.
      destruct r as [e'|b].
      * destruct Hr as (-> & Hs & Hc). rewrite Hs, Hc.
        repeat split; try lia. now rewrite repeat_snoc.
      * destruct Hr as (-> & Hs & Hc). rewrite Hs.
        repeat split; try lia.
        replace (count_exec evs + 1 - 1) with (S (count_exec evs - 1)) by lia.
        now rewrite repeat_snoc.
    + destruct (waitForSSH_attempt_succeeds w ip pw retries delay i s He) as [m1 E].
      exists [ExecSync (ssh_probe_command ip pw); CoreInfo m1], (inr true).
      simpl for_loop. unfold bind. rewrite E.
      repeat split; cbn; lia.
Qed.

(** X4: whatever the remote shell does, [waitForSSH] starts at most [retries]
    child processes, touches nothing but the console, the shell and the
    timer, and either returns [true], having slept once after each probe
    but the last, or throws its own error after [retries] probes and as
    many sleeps; every sleep lasts [delay].  With no attempt allowed it
    throws at once. *)
Theorem waitForSSH_bounded
        (w : World) (ip pw : string) (retries : nat) (delay : N) (s : state) :
  exists evs r,
    waitForSSH w ip pw (Some retries) (Some delay) s
    = (mkState (evs ++ log s) (linodeId s), r)
    /\ forallb is_probe_event evs = true
    /\ count_exec evs <= retries
    /\ match r with
       | inr b => b = true /\ sleeps evs = repeat delay (count_exec evs - 1)
                  /\ 1 <= count_exec evs
       | inl e => e = Error ("Unable to connect to " ++ ip ++ " after "
                             ++ nat_to_string retries ++ " attempts.")
                  /\ sleeps evs = repeat delay retries /\ count_exec evs = retries
       end.
Proof. unfold waitForSSH. apply for_loop_bounded. Qed.

(** ** The invocation as a whole *)

Lemma is_create_request_intro (w : World) :
  getInput w "action" = "create" ->
  getInput w "organization" <> EmptyString ->
  getInput w "repo_name" <> EmptyString ->
  is_create_request w = true.
Proof.
  intros Ha Ho Hr. unfold is_create_request.
  apply nonempty_true in Ho, Hr. now rewrite Ho, Hr, Ha.
Qed.

(** The [try] block itself never marks the invocation failed. *)
Lemma run_try_no_failure (w : World) (s1 : state) (r : error + unit) :
  run_try w init = (s1, r) -> failures (log s1) = [].
Proof.
  intros E. destruct (is_create_request w) eqn:Hc.
  - destruct (run_try_create w Hc) as (evs & v & r' & E' & _ & F & _).
    rewrite E in E'. now injection E' as -> _.
  - destruct (run_try_not_create w Hc) as (evs & v & r' & E' & _ & F).
    rewrite E in E'. now injection E' as -> _.
Qed.

(** X5: [run] never throws: whatever the inputs and the services do, the
    invocation returns, and it is marked failed exactly when the [try]
    block threw, once, with the message of that error. *)
Theorem run_reports_every_error (w : World) :
  snd (invoke w) = inr tt
  /\ failures (log (fst (invoke w)))
     = match snd (run_try w init) with
       | inl e => [message e]
       | inr _ => []
       end.
Proof.
  destruct (run_try w init) as [[evs v] r] eqn:E.
  destruct (invoke_of_try w _ _ E) as (evs' & Ei & _).
  destruct (invoke_log w evs v r E) as (_ & F & _).
  rewrite F, Ei. cbn [snd].
  rewrite (run_try_no_failure w _ _ E : failures evs = []), app_nil_r.
  split; reflexivity.
Qed.

Lemma remote_calls_rev (l : list event) : remote_calls (rev l) = rev (remote_calls l).
Proof. apply filter_rev. Qed.

(** The remote calls of the [try] block of a create request, newest
    first. *)
Lemma run_try_create_calls (w : World) :
  is_create_request w = true ->
  exists evs v r,
    run_try w init = (mkState evs v, r)
    /\ (remote_calls evs = [CreateLinode (create_payload_of w)]
        \/ remote_calls evs
           = [ AxiosPost (runners_url (getInput w "organization") (getInput w "repo_name")
                          ++ "/registration-token") (getInput w "github_token");
               CreateLinode (create_payload_of w) ]).
Proof.
  intros Hc. rewrite run_try_dispatch, dispatch_create by assumption.
  cbv [run_create bind core_info core_error core_setOutput createLinode emit settle
       set_linodeId try_catch axios_post execSync settle_unit].
  use_inputs. cbn [log linodeId init].
  change (mkPayload _ _ _ _ _ _) with (create_payload_of w).
  destruct (createLinode_result w (create_payload_of w)) as [e|vm];
    cbv [ret throw]; cbn [log linodeId].
  { do 3 eexists. split; [reflexivity|]. now left. }
  match goal with
  | |- context [waitForSSH ?w ?ip ?pw None None ?s] =>
      destruct (waitForSSH_frame w ip pw s) as (evs & r & E & P)
  end.
  destruct (probe_events_silent evs P) as (D & O & F & R).
  rewrite E. cbn [log linodeId].
  destruct r as [e|b].
  { do 3 eexists. split; [reflexivity|]. rewrite remote_calls_app, R. now left. }
  destruct (axios_post_result w _) as [e|token]; cbn [log linodeId].
  { do 3 eexists. split; [reflexivity|]. right.
    unfold remote_calls in *. cbn [filter is_remote_call].
    now rewrite filter_app, R. }
  destruct (execSync_result w _ _) as [e|]; cbn [log linodeId].
  - do 3 eexists. split; [reflexivity|]. right.
    unfold remote_calls in *. cbn [filter is_remote_call].
    now rewrite filter_app, R.
  - do 3 eexists. split; [reflexivity|]. right.
    unfold remote_calls in *. cbn [filter is_remote_call].
    now rewrite filter_app, R.
Qed.

(** X6: a create request calls the provider once, to create the instance in
    the region [us-east] with the runner label ([self-hosted] when none is
    given) as its label, and the registry at most once, to ask for a
    registration token.  It never lists or deletes instances and never
    lists or deletes runners, after a failure either. *)
Theorem create_request_calls (w : World) :
  getInput w "action" = "create" ->
  getInput w "organization" <> EmptyString ->
  getInput w "repo_name" <> EmptyString ->
  let s := fst (invoke w) in
  let created :=
    CreateLinode (mkPayload "us-east" (getInput w "machine_type") (getInput w "image")
                            (getInput w "root_password")
                            (or_else (getInput w "runner_label") "self-hosted")
                            (parse_tags (getInput w "tags"))) in
  remote_calls (trace s) = [created]
  \/ remote_calls (trace s)
     = [ created;
         AxiosPost ("https://api.github.com/repos/" ++ getInput w "organization" ++ "/"
                    ++ getInput w "repo_name" ++ "/actions/runners/registration-token")
                   (getInput w "github_token") ].
Proof.
  intros Ha Ho Hr s created. subst s created.
  destruct (run_try_create_calls w (is_create_request_intro w Ha Ho Hr))
    as (evs & v & r & E & H).
  destruct (invoke_log w evs v r E) as (_ & _ & _ & R & _).
  unfold trace. rewrite remote_calls_rev, R.
  destruct H as [-> | ->]; [left|right]; try reflexivity.
  cbn [rev app]. unfold runners_url. now rewrite !append_assoc.
Qed.

Lemma create_request_calls_witness :
  let s := fst (invoke unreachable_world) in
  let created :=
    CreateLinode (mkPayload "us-east" "g6-standard-1" "linode/ubuntu22.04" "s3cret"
                            "self-hosted" []) in
  remote_calls (trace s) = [created]
  \/ remote_calls (trace s)
     = [ created;
         AxiosPost "https://api.github.com/repos/acme/site/actions/runners/registration-token"
                   "ghp" ].
Proof.
  exact (create_request_calls unreachable_world eq_refl
           ltac:(discriminate) ltac:(discriminate)).
Defined.




(** ** Requests other than [create] *)

Lemma unregister_is_destroy (l : list event) :
  forallb is_unregister_event l = true -> forallb is_destroy_event l = true.
Proof.
  induction l as [|e l IH]; [reflexivity|].
  simpl. intros H. apply andb_true_iff in H as [He H].
  rewrite (IH H). destruct e; try discriminate He; reflexivity.
Qed.

Lemma follow_app_no_deletion (l older : list event) :
  deletions l = [] ->
  deletions_follow_listing (l ++ older) = deletions_follow_listing older.
Proof.
  induction l as [|e l IH]; [reflexivity|].
  destruct e; simpl; intros H; try discriminate H; now apply IH.
Qed.

Lemma follow_no_deletion (l : list event) :
  deletions l = [] -> deletions_follow_listing l = true.
Proof.
  intros H. rewrite <- (app_nil_r l). now rewrite follow_app_no_deletion.
Qed.

Lemma listing_present (l : list event) (url bearer : string) :
  In (AxiosGet url bearer) l -> existsb is_runner_listing l = true.
Proof.
  intros H. apply existsb_exists. now exists (AxiosGet url bearer).
Qed.

Lemma destroy_events_facts (l : list event) :
  forallb is_destroy_event l = true ->
  count_exec l = 0 /\ outputs l = []
  /\ forallb is_destroy_call (remote_calls l) = true.
Proof.
  induction l as [|e l IH]; [now repeat split|].
  simpl forallb at 1. intros H. apply andb_true_iff in H as [He H].
  destruct (IH H) as (C & O & R).
  destruct e; try discriminate He; repeat split; auto;
    unfold remote_calls in *; cbn [filter is_remote_call forallb is_destroy_call];
    now rewrite ?R.
Qed.

(** Unregistration and deletion, event by event. *)
Lemma unregister_and_delete_events (w : World) (i : inputs) (target : value)
      (done : string) (s : state) :
  exists evs,
    unregister_and_delete w i target done s
    = (mkState (evs ++ log s) (linodeId s),
       match unregistration_error w (repoOwner i) (repoName i) (baseLabel i) with
       | Some e => inl e
       | None => match deleteLinode_result w target with
                 | Some e => inl e
                 | None => inr tt
                 end
       end)
    /\ forallb is_destroy_event evs = true
    /\ (forall older, deletions_follow_listing (evs ++ older)
                      = deletions_follow_listing older)
    /\ length (deletions evs) <= 1.
Proof.
  destruct (unregisterRunner_spec w (repoOwner i) (repoName i) (githubToken i)
              (baseLabel i) s) as (evs & E & Hev & Hin).
  destruct (unregister_events_silent evs Hev) as (D & O & F & L & C).
  pose proof (unregister_is_destroy evs Hev) as Hd.
  pose proof (listing_present evs _ _ Hin) as Hl.
  unfold unregister_and_delete, bind. rewrite E.
  destruct (unregistration_error w (repoOwner i) (repoName i) (baseLabel i)) as [e|].
  - exists evs. repeat split; auto.
    + intros older. now apply follow_app_no_deletion.
    + rewrite D. simpl. lia.
  - cbv [deleteLinode bind emit settle_unit core_info]. cbn [log linodeId].
    destruct (deleteLinode_result w target) as [e|]; cbv [throw ret].
    + exists (DeleteLinode target :: evs). repeat split.
      * cbn. exact Hd.
      * intros older. cbn. rewrite existsb_app, Hl. cbn.
        now apply follow_app_no_deletion.
      * cbn. rewrite D. simpl. lia.
    + eexists (CoreInfo _ :: DeleteLinode target :: evs). repeat split.
      * cbn. exact Hd.
      * intros older. cbn. rewrite existsb_app, Hl. cbn.
        now apply follow_app_no_deletion.
      * cbn. rewrite D. simpl. lia.
Qed.

(** The destroy branch, event by event. *)
Lemma run_destroy_events (w : World) (i : inputs) (s : state) :
  exists evs r,
    run_destroy w i s = (mkState (evs ++ log s) (linodeId s), r)
    /\ forallb is_destroy_event evs = true
    /\ (forall older, deletions_follow_listing (evs ++ older)
                      = deletions_follow_listing older)
    /\ length (deletions evs) <= 1.
Proof.
  destruct s as [l v]. unfold run_destroy.
  destruct (nonempty (machineId i)).
  - cbv [bind core_info emit]. cbn [log linodeId].
    match goal with
    | |- context [unregister_and_delete ?w ?i ?t ?d ?s] =>
        destruct (unregister_and_delete_events w i t d s) as (evs & E & Hd & Hf & Hl)
    end.
    rewrite E. cbn [log linodeId].
    eexists (evs ++ [CoreInfo _])%list, _. rewrite <- app_assoc.
    split; [reflexivity|]. repeat split.
    + rewrite forallb_app, Hd. reflexivity.
    + intros older. rewrite <- app_assoc. rewrite Hf. reflexivity.
    + rewrite deletions_app. cbn. now rewrite app_nil_r.
  - destruct (nonempty (searchPhrase i)).
    2:{ exists [], (inl (Error neither_message)). repeat split. simpl. lia. }
    cbv [bind core_info emit getLinodes settle]. cbn [log linodeId].
    destruct (getLinodes_result w) as [e|instances]; cbv [ret throw]; cbn [log linodeId].
    { eexists [GetLinodes; CoreInfo _], _. repeat split. simpl. lia. }
    destruct (filter (matches (searchPhrase i)) instances) as [|found [|other rest]].
    + eexists [GetLinodes; CoreInfo _], _. repeat split. simpl. lia.
    + cbv [bind core_info emit]. cbn [log linodeId].
      match goal with
      | |- context [unregister_and_delete ?w ?i ?t ?d ?s] =>
          destruct (unregister_and_delete_events w i t d s) as (evs & E & Hd & Hf & Hl)
      end.
      rewrite E. cbn [log linodeId].
      eexists (evs ++ [CoreInfo _; GetLinodes; CoreInfo _])%list, _.
      rewrite <- app_assoc.
      split; [reflexivity|]. repeat split.
      * rewrite forallb_app, Hd. reflexivity.
      * intros older. rewrite <- app_assoc. rewrite Hf. reflexivity.
      * rewrite deletions_app. cbn. now rewrite app_nil_r.
    + eexists [GetLinodes; CoreInfo _], _. repeat split. simpl. lia.
Qed.

(** The [try] block of a request that is no valid create request. *)
Lemma run_try_other_events (w : World) :
  is_create_request w = false ->
  exists evs r,
    run_try w init = (mkState evs VNull, r)
    /\ forallb is_destroy_event evs = true
    /\ deletions_follow_listing evs = true
    /\ length (deletions evs) <= 1.
Proof.
  intros Hc. rewrite run_try_dispatch. unfold is_create_request, dispatch in *.
  use_inputs. cbn [log linodeId init].
  destruct (nonempty (getInput w "organization")); cbn [negb orb andb] in *.
  2:{ do 2 eexists. split; [reflexivity|]. repeat split. simpl. lia. }
  destruct (nonempty (getInput w "repo_name")); cbn [negb orb andb] in *.
  2:{ do 2 eexists. split; [reflexivity|]. repeat split. simpl. lia. }
  rewrite Hc.
  destruct (String.eqb (getInput w "action") "destroy").
  2:{ do 2 eexists. split; [reflexivity|]. repeat split. simpl. lia. }
  match goal with
  | |- context [run_destroy ?w ?i ?s] =>
      destruct (run_destroy_events w i s) as (evs & r & E & Hd & Hf & Hl)
  end.
  rewrite E. cbn [log linodeId]. do 2 eexists. split; [reflexivity|].
  repeat split.
  - rewrite forallb_app, Hd. reflexivity.
  - rewrite Hf. reflexivity.
  - rewrite deletions_app. cbn. now rewrite app_nil_r.
Qed.

(** X11: in every invocation, whatever the inputs and the services do, a call
    of [deleteLinode] comes after a request for the list of runners: no
    instance is deleted before the unregistration was attempted. *)
Theorem deletion_follows_unregistration (w : World) :
  deletions_follow_listing (log (fst (invoke w))) = true.
Proof.
  destruct (is_create_request w) eqn:Hc.
  - apply follow_no_deletion. now apply create_never_deletes.
  - destruct (run_try_other_events w Hc) as (evs & r & E & _ & Hf & _).
    destruct (invoke_of_try w _ _ E) as (evs' & Ei & D & _).
    rewrite Ei. cbn [fst log]. now rewrite follow_app_no_deletion.
Qed.

(** X12: an invocation whose action is not [create] starts no child process
    and sets no output; its remote calls are among the list of instances,
    the list of runners, the deletion of a runner and the deletion of an
    instance, and it deletes at most one instance. *)
Theorem other_requests_stay_remote (w : World) :
  getInput w "action" <> "create" ->
  let s := fst (invoke w) in
  count_exec (log s) = 0
  /\ outputs (log s) = []
  /\ forallb is_destroy_call (remote_calls (log s)) = true
  /\ length (deletions (log s)) <= 1.
Proof.
  intros Ha s. subst s.
  assert (Hc : is_create_request w = false).
  { unfold is_create_request. apply String.eqb_neq in Ha. rewrite Ha.
    now rewrite andb_false_r. }
  destruct (run_try_other_events w Hc) as (evs & r & E & Hd & _ & Hl).
  destruct (destroy_events_facts evs Hd) as (C & O & R).
  destruct (invoke_log w evs VNull r E) as (D' & _ & _ & R' & C' & O' & _).
  now rewrite D', R', C', O'.
Qed.

Lemma other_requests_stay_remote_witness :
  let s := fst (invoke (phrase_world "db")) in
  count_exec (log s) = 0
  /\ outputs (log s) = []
  /\ forallb is_destroy_call (remote_calls (log s)) = true
  /\ length (deletions (log s)) <= 1.
Proof.
  exact (other_requests_stay_remote (phrase_world "db") ltac:(discriminate)).
Defined.

(** How the [try] block of a destroy request with a resolved target
    ends. *)
Lemma run_try_destroy_result (w : World) (target : value) :
  getInput w "action" = "destroy" ->
  getInput w "organization" <> EmptyString ->
  getInput w "repo_name" <> EmptyString ->
  resolved_target w = Some target ->
  snd (run_try w init)
  = match invocation_unregistration_error w with
    | Some e => inl e
    | None => match deleteLinode_result w target with
              | Some e => inl e
              | None => inr tt
              end
    end.
Proof.
  intros Ha Ho Hr Ht.
  rewrite run_try_dispatch, dispatch_destroy by assumption.
  unfold run_destroy, resolved_target, invocation_unregistration_error in *. use_inputs.
  destruct (nonempty (getInput w "machine_id")).
  - injection Ht as <-.
    cbv [bind core_info emit]. cbn [log linodeId init].
    match goal with
    | |- context [unregister_and_delete ?w ?i ?t ?d ?s] =>
        destruct (unregister_and_delete_events w i t d s) as (evs & E & _)
    end.
    rewrite E. reflexivity.
  - destruct (nonempty (getInput w "search_phrase")); [|discriminate].
    cbv [bind core_info emit getLinodes settle]. cbn [log linodeId init].
    destruct (getLinodes_result w) as [e|instances]; [discriminate|].
    cbv [ret]. cbn [log linodeId].
    destruct (filter (matches (getInput w "search_phrase")) instances)
      as [|found [|other rest]]; try discriminate.
    injection Ht as <-.
    cbv [bind core_info emit]. cbn [log linodeId init].
    match goal with
    | |- context [unregister_and_delete ?w ?i ?t ?d ?s] =>
        destruct (unregister_and_delete_events w i t d s) as (evs & E & _)
    end.
    rewrite E. reflexivity.
Qed.

(** X13: a destroy request with a resolved target succeeds exactly when the
    unregistration returns and the provider accepts the deletion;
    otherwise it is marked failed with the message of the first of the
    two that failed. *)
Theorem destroy_outcome (w : World) (target : value) :
  getInput w "action" = "destroy" ->
  getInput w "organization" <> EmptyString ->
  getInput w "repo_name" <> EmptyString ->
  resolved_target w = Some target ->
  failures (log (fst (invoke w)))
  = match invocation_unregistration_error w with
    | Some e => [message e]
    | None => match deleteLinode_result w target with
              | Some e => [message e]
              | None => []
              end
    end.
Proof.
  intros Ha Ho Hr Ht.
  pose proof (run_try_destroy_result w target Ha Ho Hr Ht) as R.
  destruct (run_try_destroy_resolved w target Ha Ho Hr Ht)
    as (evs & r & E & _ & _ & _ & F & _).
  rewrite E in R. cbn [snd] in R.
  destruct (invoke_log w evs VNull r E) as (_ & F' & _).
  rewrite F', F, R, app_nil_r.
  destruct (invocation_unregistration_error w); [reflexivity|].
  destruct (deleteLinode_result w target); reflexivity.
Qed.

Lemma destroy_outcome_witness :
  failures (log (fst (invoke stuck_delete_world))) = ["Linode busy"].
Proof.
  exact (destroy_outcome stuck_delete_world (VStr "12345")
           eq_refl ltac:(discriminate) ltac:(discriminate) eq_refl).
Defined.

(** The [try] block of a destroy request that resolves no target deletes
    nothing. *)
Lemma run_try_destroy_unresolved (w : World) :
  getInput w "action" = "destroy" ->
  getInput w "organization" <> EmptyString ->
  getInput w "repo_name" <> EmptyString ->
  resolved_target w = None ->
  exists evs r, run_try w init = (mkState evs VNull, r) /\ deletions evs = [].
Proof.
  intros Ha Ho Hr Ht.
  rewrite run_try_dispatch, dispatch_destroy by assumption.
  unfold run_destroy, resolved_target in *. use_inputs.
  destruct (nonempty (getInput w "machine_id")); [discriminate|].
  destruct (nonempty (getInput w "search_phrase")).
  2:{ do 2 eexists. split; reflexivity. }
  cbv [bind core_info emit getLinodes settle]. cbn [log linodeId init].
  destruct (getLinodes_result w) as [e|instances]; cbv [ret throw]; cbn [log linodeId].
  { do 2 eexists. split; reflexivity. }
  destruct (filter (matches (getInput w "search_phrase")) instances)
    as [|found [|other rest]]; try discriminate;
    do 2 eexists; split; reflexivity.
Qed.

(** X14: in a destroy request by phrase, an instance that gets deleted is the
    single instance of the provider's list that matches the phrase. *)
Theorem phrase_deletes_only_the_match (w : World) (t : value) :
  getInput w "action" = "destroy" ->
  getInput w "organization" <> EmptyString ->
  getInput w "repo_name" <> EmptyString ->
  getInput w "machine_id" = EmptyString ->
  In t (deletions (log (fst (invoke w)))) ->
  exists instances vm,
    getLinodes_result w = inr instances
    /\ filter (matches (getInput w "search_phrase")) instances = [vm]
    /\ In vm instances
    /\ matches (getInput w "search_phrase") vm = true
    /\ t = VNum (id vm).
Proof.
  intros Ha Ho Hr Hm Ht.
  destruct (resolved_target w) as [target|] eqn:R.
  - destruct (run_try_destroy_resolved w target Ha Ho Hr R)
      as (evs & r & E & D & _).
    destruct (invoke_log w evs VNull r E) as (D' & _).
    rewrite D', D in Ht.
    assert (t = target) as ->.
    { destruct (invocation_unregistration_error w); simpl in Ht; intuition. }
    unfold resolved_target in R. rewrite Hm in R. cbn [nonempty] in R.
    destruct (nonempty (getInput w "search_phrase")); [|discriminate].
    destruct (getLinodes_result w) as [e|instances]; [discriminate|].
    destruct (filter (matches (getInput w "search_phrase")) instances)
      as [|found [|other rest]] eqn:Fi; try discriminate.
    injection R as <-.
    assert (Hin : In found (filter (matches (getInput w "search_phrase")) instances))
      by (rewrite Fi; now left).
    apply filter_In in Hin as [Hin Hmatch].
    exists instances, found. auto.
  - destruct (run_try_destroy_unresolved w Ha Ho Hr R) as (evs & r & E & D).
    destruct (invoke_log w evs VNull r E) as (D' & _).
    rewrite D', D in Ht. contradiction.
Qed.

Lemma phrase_deletes_only_the_match_witness :
  exists instances vm,
    getLinodes_result (phrase_world "db") = inr instances
    /\ filter (matches (getInput (phrase_world "db") "search_phrase")) instances = [vm]
    /\ In vm instances
    /\ matches (getInput (phrase_world "db") "search_phrase") vm = true
    /\ VNum 3 = VNum (id vm).
Proof.
  apply (phrase_deletes_only_the_match (phrase_world "db") (VNum 3)).
  - reflexivity.
  - discriminate.
  - discriminate.
  - reflexivity.
  - vm_compute. tauto.
Defined.

(** The [try] block of a destroy request by phrase with several
    matches. *)
Lemma run_try_phrase_ambiguous (w : World) (instances : list linode) :
  getInput w "action" = "destroy" ->
  getInput w "organization" <> EmptyString ->
  getInput w "repo_name" <> EmptyString ->
  getInput w "machine_id" = EmptyString ->
  getInput w "search_phrase" <> EmptyString ->
  getLinodes_result w = inr instances ->
  2 <= length (filter (matches (getInput w "search_phrase")) instances) ->
  exists evs,
    run_try w init
    = (mkState evs VNull,
       inl (Error (multiple_match_message (getInput w "search_phrase"))))
    /\ deletions evs = [] /\ failures evs = [].
Proof.
  intros Ha Ho Hr Hm Hp Hl Hn.
  rewrite run_try_dispatch, dispatch_destroy by assumption.
  unfold run_destroy. use_inputs. apply nonempty_true in Hp. rewrite Hm, Hp.
  cbn [nonempty].
  cbv [bind core_info emit getLinodes settle]. cbn [log linodeId init].
  rewrite Hl. cbv [ret]. cbn [log linodeId].
  destruct (filter (matches (getInput w "search_phrase")) instances)
    as [|found [|other rest]]; cbn [length] in Hn; try lia.
  cbv [throw]. eexists. repeat split.
Qed.

Lemma two_matches {A} (f : A -> bool) (l : list A) (a b : A) :
  In a l -> In b l -> a <> b -> f a = true -> f b = true ->
  2 <= length (filter f l).
Proof.
  intros Ha Hb Hab Fa Fb.
  assert (Ia : In a (filter f l)) by now apply filter_In.
  assert (Ib : In b (filter f l)) by now apply filter_In.
  destruct (filter f l) as [|x [|y r]]; simpl in *; try lia; try contradiction.
  destruct Ia as [<-|[]], Ib as [<-|[]]. contradiction.
Qed.

Lemma matches_of_label (phrase pre post : string) (vm : linode) :
  label vm = pre ++ phrase ++ post -> matches phrase vm = true.
Proof.
  intros H. unfold matches.
  assert (I : includes (label vm) phrase = true)
    by (apply includes_spec; now exists pre, post).
  now rewrite I.
Qed.

(** X15: searching for an instance by its exact label fails, and deletes
    nothing, as soon as the label of another instance contains that
    label: both match, and the match is ambiguous. *)
Theorem contained_label_is_ambiguous
        (w : World) (instances : list linode) (a b : linode) (pre post : string) :
  getInput w "action" = "destroy" ->
  getInput w "organization" <> EmptyString ->
  getInput w "repo_name" <> EmptyString ->
  getInput w "machine_id" = EmptyString ->
  getInput w "search_phrase" <> EmptyString ->
  getLinodes_result w = inr instances ->
  In a instances -> In b instances -> a <> b ->
  label a = getInput w "search_phrase" ->
  label b = pre ++ label a ++ post ->
  let s := fst (invoke w) in
  deletions (log s) = []
  /\ failures (log s)
     = ["Multiple Linode instances found matching the search phrase: " ++ label a].
Proof.
  intros Ha Ho Hr Hm Hp Hl Ia Ib Hab La Lb s. subst s.
  assert (Ma : matches (getInput w "search_phrase") a = true).
  { apply (matches_of_label _ EmptyString EmptyString).
    rewrite La. simpl. now rewrite append_nil_r. }
  assert (Mb : matches (getInput w "search_phrase") b = true).
  { apply (matches_of_label _ pre post). now rewrite <- La. }
  pose proof (two_matches _ instances a b Ia Ib Hab Ma Mb) as H2.
  destruct (run_try_phrase_ambiguous w instances Ha Ho Hr Hm Hp Hl H2)
    as (evs & E & D & F).
  destruct (invoke_log w _ _ _ E) as (D' & F' & _).
  rewrite D', F', D, F, La. split; reflexivity.
Qed.

Lemma contained_label_is_ambiguous_witness :
  let s := fst (invoke (search_world "runner-1" [vm_long; vm_short])) in
  deletions (log s) = []
  /\ failures (log s)
     = ["Multiple Linode instances found matching the search phrase: runner-1"].
Proof.
  apply (contained_label_is_ambiguous (search_world "runner-1" [vm_long; vm_short])
           [vm_long; vm_short] vm_short vm_long EmptyString "0").
  - reflexivity.
  - discriminate.
  - discriminate.
  - reflexivity.
  - discriminate.
  - reflexivity.
  - simpl. tauto.
  - simpl. tauto.
  - discriminate.
  - reflexivity.
  - reflexivity.
Defined.

(** ** The search filter and the tags *)

(** X16: the equality test of the filter (line 164) never changes its result:
    a label that equals the phrase also contains it. *)
Theorem matches_is_substring_or_tag (phrase : string) (instance : linode) :
  matches phrase instance
  = includes (label instance) phrase || array_includes (tags instance) phrase.
Proof.
  unfold matches.
  destruct (String.eqb (label instance) phrase) eqn:E; [|now rewrite orb_false_r].
  apply String.eqb_eq in E.
  assert (I : includes (label instance) phrase = true).
  { apply includes_spec. exists EmptyString, EmptyString.
    rewrite E. simpl. now rewrite append_nil_r. }
  now rewrite I.
Qed.

Lemma trimStart_id (t : string) :
  white_char (first_char t) = false -> trimStart t = t.
Proof. destruct t as [|c t]; simpl; [reflexivity|]. now intros ->. Qed.

Lemma trimEnd_id (t : string) :
  white_char (last_char t) = false -> trimEnd t = t.
Proof.
  induction t as [|c t IH]; [reflexivity|].
  destruct t as [|d t].
  - simpl. now intros ->.
  - intros H. change (last_char (String c (String d t))) with (last_char (String d t)) in H.
    change (trimEnd (String c (String d t)))
      with (match trimEnd (String d t) with
            | EmptyString => if is_white c then EmptyString else String c EmptyString
            | r' => String c r'
            end).
    now rewrite (IH H).
Qed.

Lemma split_no_sep (sep : ascii) (t : string) :
  count_char sep t = 0 -> split sep t = [t].
Proof.
  induction t as [|c t IH]; [reflexivity|].
  simpl. destruct (Ascii.eqb c sep); [discriminate|].
  simpl. intros H. now rewrite (IH H).
Qed.

Lemma split_app_sep (sep : ascii) (a rest : string) :
  count_char sep a = 0 ->
  split sep (a ++ String sep rest) = a :: split sep rest.
Proof.
  induction a as [|c a IH]; simpl.
  - intros _. now rewrite Ascii.eqb_refl.
  - destruct (Ascii.eqb c sep); [discriminate|].
    simpl. intros H. now rewrite (IH H).
Qed.

Lemma clean_tag_spec (t : string) :
  clean_tag t = true ->
  nonempty t = true /\ count_char "," t = 0 /\ trim t = t.
Proof.
  unfold clean_tag. intros H.
  apply andb_true_iff in H as [H L]. apply andb_true_iff in H as [H F].
  apply andb_true_iff in H as [N C].
  apply negb_true_iff in L, F. apply Nat.eqb_eq in C.
  repeat split; auto. unfold trim. rewrite (trimStart_id t F). now apply trimEnd_id.
Qed.

Lemma split_join (l : list string) :
  l <> [] -> forallb clean_tag l = true ->
  split "," (join "," l) = l /\ nonempty (join "," l) = true.
Proof.
  induction l as [|x l IH]; [congruence|]. intros _ H.
  cbn [forallb] in H. apply andb_true_iff in H as [Hx Hl].
  destruct (clean_tag_spec x Hx) as (N & C & _).
  destruct l as [|y l].
  - simpl. split; [now apply split_no_sep|assumption].
  - destruct (IH ltac:(discriminate) Hl) as [IHs _].
    change (join "," (x :: y :: l)) with (x ++ String "," (join "," (y :: l))).
    rewrite split_app_sep by assumption. rewrite IHs. split; [reflexivity|].
    destruct x; [discriminate|reflexivity].
Qed.

Lemma map_trim_clean (l : list string) :
  forallb clean_tag l = true -> map trim l = l.
Proof.
  induction l as [|x l IH]; [reflexivity|]. intros H.
  cbn [forallb] in H. apply andb_true_iff in H as [Hx Hl].
  destruct (clean_tag_spec x Hx) as (_ & _ & T).
  simpl. now rewrite T, (IH Hl).
Qed.

(** X17: round trip of the tags: a non-empty list of tags, none of them empty,
    with a comma or with white space at an end, written with commas in
    between as the [tags] input (and as the line [Tags:] of the log shows
    it) is parsed back to the same list. *)
Theorem parse_tags_of_joined (l : list string) :
  l <> [] -> forallb clean_tag l = true ->
  parse_tags (join "," l) = l.
Proof.
  intros Hne Hc. destruct (split_join l Hne Hc) as [S N].
  unfold parse_tags. rewrite N, S. now apply map_trim_clean.
Qed.

Lemma parse_tags_of_joined_witness :
  parse_tags (join "," ["ci"; "blue green"; "x86"]) = ["ci"; "blue green"; "x86"].
Proof.
  apply (parse_tags_of_joined ["ci"; "blue green"; "x86"]); [discriminate|reflexivity].
Defined.

(** ** Create requests that fail *)

(** X8: when the provider rejects the creation, the invocation fails with the
    error of the provider, having made no other remote call, started no
    child process and set no output; with no instance to clean up, the
    failure is the last thing it does. *)
Theorem create_rejected (w : World) (e : error) :
  getInput w "action" = "create" ->
  getInput w "organization" <> EmptyString ->
  getInput w "repo_name" <> EmptyString ->
  createLinode_result w (create_payload_of w) = inl e ->
  let s := fst (invoke w) in
  log s = CoreSetFailed (message e) :: CreateLinode (create_payload_of w)
            :: CoreInfo "Creating new Linode instance..." :: preamble w
  /\ linodeId s = VNull.
Proof.
  intros Ha Ho Hr Hcreate s. subst s.
  pose proof (is_create_request_intro w Ha Ho Hr) as Hc.
  rewrite invoke_unfold. unfold try_catch.
  rewrite run_try_dispatch, dispatch_create by assumption.
  cbv [run_create bind core_info createLinode emit settle].
  use_inputs. cbn [log linodeId init].
  change (mkPayload _ _ _ _ _ _) with (create_payload_of w).
  rewrite Hcreate. cbv [throw].
  cbv [run_catch bind core_setFailed emit get_linodeId ret truthy].
  cbn [log linodeId fst]. now rewrite app_nil_r.
Qed.

Lemma create_rejected_witness :
  let s := fst (invoke quota_world) in
  log s = CoreSetFailed "Account limit reached"
            :: CreateLinode (create_payload_of quota_world)
            :: CoreInfo "Creating new Linode instance..." :: preamble quota_world
  /\ linodeId s = VNull.
Proof.
  exact (create_rejected quota_world (Error "Account limit reached")
           eq_refl ltac:(discriminate) ltac:(discriminate) eq_refl).
Defined.

(** The [try] block of a create request whose setup command fails. *)
Lemma run_try_create_setup_failure
      (w : World) (vm : linode) (token : string) (n : nat) (e : error) :
  is_create_request w = true ->
  createLinode_result w (create_payload_of w) = inr vm ->
  n < 10 ->
  (forall k, k < n ->
     execSync_result w k (ssh_probe_command (ipv4 vm) (getInput w "root_password"))
     <> None) ->
  execSync_result w n (ssh_probe_command (ipv4 vm) (getInput w "root_password")) = None ->
  axios_post_result w (runners_url (getInput w "organization") (getInput w "repo_name")
                       ++ "/registration-token") = inr token ->
  execSync_result w (n + 1) (setup_command (read_inputs w) (ipv4 vm) token) = Some e ->
  exists l v,
    run_try w init = (mkState l v, inl e)
    /\ outputs l = [("machine_ip", VStr (ipv4 vm)); ("machine_id", VNum (id vm))]
    /\ count_exec l = n + 2
    /\ hd_error l = Some (CoreError ("Runner setup failed: " ++ message e)).
Proof.
  intros Hc Hcreate Hlt Hfail Hok Hpost Hsetup.
  rewrite run_try_dispatch, dispatch_create by assumption.
  cbv [run_create bind core_info core_error core_setOutput createLinode emit settle
       set_linodeId try_catch axios_post execSync settle_unit].
  use_inputs. cbn [log linodeId init].
  change (mkPayload _ _ _ _ _ _) with (create_payload_of w).
  rewrite Hcreate. cbv [ret throw]. cbn [log linodeId].
  unfold waitForSSH.
  match goal with
  | |- context [for_loop 10 0 (waitForSSH_attempt ?w ?ip ?pw 10 ?d) ?after ?s] =>
      destruct (for_loop_fail_then_succeed w ip pw 10 d after n 10 0 s Hlt
                  (fun k Hk => Hfail k Hk) Hok) as (evs & E & C & S & P)
  end.
  destruct (probe_events_silent evs P) as (D & O & F & R).
  rewrite E. cbn [log linodeId]. rewrite Hpost. cbn [log linodeId].
  match goal with
  | |- context [execSync_result w (count_exec ?l) ?c] =>
      assert (Hn : count_exec l = n + 1)
        by (unfold count_exec in *; cbn [filter is_exec];
            rewrite filter_app, length_app, C; cbn; lia);
      rewrite Hn;
      replace (execSync_result w (n + 1) c) with (Some e)
        by (symmetry; exact Hsetup)
  end.
  cbn [log linodeId]. do 2 eexists. split; [reflexivity|].
  cbn [outputs hd_error]. rewrite outputs_app, O.
  unfold count_exec in *. cbn [filter is_exec]. rewrite filter_app.
  cbn [length]. rewrite length_app, C.
  repeat split; cbn; lia.
Qed.

(** X10: when the setup command fails on the new instance, the error is logged
    as a setup failure and reported as the failure of the invocation;
    [machine_id] and [machine_ip] are set and [runner_label] is not. *)
Theorem create_fails_at_setup
        (w : World) (vm : linode) (token : string) (n : nat) (e : error) :
  getInput w "action" = "create" ->
  getInput w "organization" <> EmptyString ->
  getInput w "repo_name" <> EmptyString ->
  createLinode_result w (create_payload_of w) = inr vm ->
  n < 10 ->
  (forall k, k < n ->
     execSync_result w k (ssh_probe_command (ipv4 vm) (getInput w "root_password"))
     <> None) ->
  execSync_result w n (ssh_probe_command (ipv4 vm) (getInput w "root_password")) = None ->
  axios_post_result w (runners_url (getInput w "organization") (getInput w "repo_name")
                       ++ "/registration-token") = inr token ->
  execSync_result w (n + 1) (setup_command (read_inputs w) (ipv4 vm) token) = Some e ->
  let s := fst (invoke w) in
  failures (log s) = [message e]
  /\ In (CoreError ("Runner setup failed: " ++ message e)) (log s)
  /\ outputs (trace s) = [("machine_id", VNum (id vm)); ("machine_ip", VStr (ipv4 vm))]
  /\ count_exec (log s) = n + 2.
Proof.
  intros Ha Ho Hr Hcreate Hlt Hfail Hok Hpost Hsetup s. subst s.
  destruct (run_try_create_setup_failure w vm token n e
              (is_create_request_intro w Ha Ho Hr)
              Hcreate Hlt Hfail Hok Hpost Hsetup) as (l & v & E & O & C & X).
  pose proof (run_try_no_failure w _ _ E) as F. cbn [log] in F.
  destruct (invoke_log w l v _ E) as (_ & F' & _ & _ & C' & O' & I').
  unfold trace. rewrite outputs_rev, F', F, C', O', O, C.
  repeat split. apply I'. destruct l as [|x l]; [discriminate|].
  injection X as ->. now left.
Qed.

Lemma create_fails_at_setup_witness :
  let s := fst (invoke (create_world setup_failing_shell)) in
  failures (log s) = ["Command failed: sshpass"]
  /\ In (CoreError "Runner setup failed: Command failed: sshpass") (log s)
  /\ outputs (trace s)
     = [("machine_id", VNum 12345); ("machine_ip", VStr "192.0.2.10")]
  /\ count_exec (log s) = 0 + 2.
Proof.
  apply (create_fails_at_setup (create_world setup_failing_shell)
           vm_12345 "TOKEN" 0 (Error "Command failed: sshpass")).
  - reflexivity.
  - discriminate.
  - discriminate.
  - reflexivity.
  - lia.
  - intros k Hk. lia.
  - reflexivity.
  - reflexivity.
  - reflexivity.
Defined.

(** The [try] block of a create request for which GitHub mints no
    token. *)
Lemma run_try_create_token_failure
      (w : World) (vm : linode) (n : nat) (e : error) :
  is_create_request w = true ->
  createLinode_result w (create_payload_of w) = inr vm ->
  n < 10 ->
  (forall k, k < n ->
     execSync_result w k (ssh_probe_command (ipv4 vm) (getInput w "root_password"))
     <> None) ->
  execSync_result w n (ssh_probe_command (ipv4 vm) (getInput w "root_password")) = None ->
  axios_post_result w (runners_url (getInput w "organization") (getInput w "repo_name")
                       ++ "/registration-token") = inl e ->
  exists l v,
    run_try w init = (mkState l v, inl e)
    /\ outputs l = [("machine_ip", VStr (ipv4 vm)); ("machine_id", VNum (id vm))]
    /\ count_exec l = n + 1.
Proof.
  intros Hc Hcreate Hlt Hfail Hok Hpost.
  rewrite run_try_dispatch, dispatch_create by assumption.
  cbv [run_create bind core_info core_error core_setOutput createLinode emit settle
       set_linodeId try_catch axios_post execSync settle_unit].
  use_inputs. cbn [log linodeId init].
  change (mkPayload _ _ _ _ _ _) with (create_payload_of w).
  rewrite Hcreate. cbv [ret throw]. cbn [log linodeId].
  unfold waitForSSH.
  match goal with
  | |- context [for_loop 10 0 (waitForSSH_attempt ?w ?ip ?pw 10 ?d) ?after ?s] =>
      destruct (for_loop_fail_then_succeed w ip pw 10 d after n 10 0 s Hlt
                  (fun k Hk => Hfail k Hk) Hok) as (evs & E & C & S & P)
  end.
  destruct (probe_events_silent evs P) as (D & O & F & R).
  rewrite E. cbn [log linodeId]. rewrite Hpost. cbn [log linodeId].
  do 2 eexists. split; [reflexivity|].
  cbn [outputs]. rewrite outputs_app, O.
  unfold count_exec in *. cbn [filter is_exec]. rewrite filter_app, length_app, C.
  split; [reflexivity | cbn; lia].
Qed.

(** X9: when GitHub mints no registration token, the invocation fails with
    the error of that request and the setup command is not started: the
    only child processes are the probes. *)
Theorem create_fails_at_token
        (w : World) (vm : linode) (n : nat) (e : error) :
  getInput w "action" = "create" ->
  getInput w "organization" <> EmptyString ->
  getInput w "repo_name" <> EmptyString ->
  createLinode_result w (create_payload_of w) = inr vm ->
  n < 10 ->
  (forall k, k < n ->
     execSync_result w k (ssh_probe_command (ipv4 vm) (getInput w "root_password"))
     <> None) ->
  execSync_result w n (ssh_probe_command (ipv4 vm) (getInput w "root_password")) = None ->
  axios_post_result w (runners_url (getInput w "organization") (getInput w "repo_name")
                       ++ "/registration-token") = inl e ->
  let s := fst (invoke w) in
  failures (log s) = [message e]
  /\ outputs (trace s) = [("machine_id", VNum (id vm)); ("machine_ip", VStr (ipv4 vm))]
  /\ count_exec (log s) = n + 1.
Proof.
  intros Ha Ho Hr Hcreate Hlt Hfail Hok Hpost s. subst s.
  destruct (run_try_create_token_failure w vm n e
              (is_create_request_intro w Ha Ho Hr)
              Hcreate Hlt Hfail Hok Hpost) as (l & v & E & O & C).
  pose proof (run_try_no_failure w _ _ E) as F. cbn [log] in F.
  destruct (invoke_log w l v _ E) as (_ & F' & _ & _ & C' & O' & _).
  unfold trace. rewrite outputs_rev, F', F, C', O', O, C.
  repeat split.
Qed.

Lemma create_fails_at_token_witness :
  let s := fst (invoke tokenless_world) in
  failures (log s) = ["Request failed with status code 403"]
  /\ outputs (trace s)
     = [("machine_id", VNum 12345); ("machine_ip", VStr "192.0.2.10")]
  /\ count_exec (log s) = 1 + 1.
Proof.
  apply (create_fails_at_token tokenless_world vm_12345 1
           (mkError "Request failed with status code 403" (Some (403, "Forbidden")))).
  - reflexivity.
  - discriminate.
  - discriminate.
  - reflexivity.
  - lia.
  - intros k Hk. unfold tokenless_world, flaky_shell. cbn [execSync_result].
    destruct (Nat.ltb_spec k 1); [discriminate | lia].
  - reflexivity.
  - reflexivity.
Defined.

(** * Input resolution, destroy by identifier and tags, in full *)

(** ** Input resolution at concrete requests *)

Lemma invalid_request_fails_before_any_call_witness :
  (let s := fst (invoke empty_world) in
   remote_calls (log s) = [] /\ count_exec (log s) = 0 /\ outputs (log s) = []
   /\ failures (log s) = ["Both organization and repo_name inputs are required."])
  /\ (let s := fst (invoke no_repo_world) in
      remote_calls (log s) = [] /\ count_exec (log s) = 0 /\ outputs (log s) = []
      /\ failures (log s) = ["Both organization and repo_name inputs are required."])
  /\ (let s := fst (invoke bad_action_world) in
      remote_calls (log s) = [] /\ count_exec (log s) = 0 /\ outputs (log s) = []
      /\ failures (log s) = [invalid_action_message])
  /\ (let s := fst (invoke targetless_destroy_world) in
      remote_calls (log s) = [] /\ count_exec (log s) = 0 /\ outputs (log s) = []
      /\ failures (log s)
         = ["Either machine_id or search_phrase must be provided for destruction"]).
Proof.
  split; [|split; [|split]].
  - pose proof (invalid_request_fails_before_any_call empty_world
                  (or_introl eq_refl)) as H.
    vm_compute in H |- *. exact H.
  - pose proof (invalid_request_fails_before_any_call no_repo_world
                  (or_intror (or_introl eq_refl))) as H.
    vm_compute in H |- *. exact H.
  - assert (Hc : getInput bad_action_world "action" <> "create") by discriminate.
    assert (Hd : getInput bad_action_world "action" <> "destroy") by discriminate.
    pose proof (invalid_request_fails_before_any_call bad_action_world
                  (or_intror (or_intror (or_introl (conj Hc Hd))))) as H.
    vm_compute in H |- *. exact H.
  - pose proof (invalid_request_fails_before_any_call targetless_destroy_world
                  (or_intror (or_intror (or_intror
                     (conj eq_refl (conj eq_refl eq_refl)))))) as H.
    vm_compute in H |- *. exact H.
Defined.

(** C7 (counterexample): a create request with a machine type and without
    image passes the checks of the script: however [createLinode] settles,
    the script has called it, as its first remote call, with an empty
    image.  When the instance is created and never becomes reachable, the
    failure reported is the one of the probe, not one of the inputs. *)
Lemma create_without_image_reaches_the_provider :
  getInput (imageless_world refused) "image" = EmptyString
  /\ (forall answer,
        hd_error (remote_calls (trace (fst (invoke (imageless_world answer)))))
        = Some (CreateLinode (mkPayload "us-east" "g6-standard-1" EmptyString "s3cret"
                                        "self-hosted" [])))
  /\ failures (log (fst (invoke (imageless_world (inr vm_12345)))))
     = ["Unable to connect to 192.0.2.10 after 10 attempts."].
Proof.
  split; [reflexivity|]. split; [|vm_compute; reflexivity].
  intros answer.
  destruct (run_try_create_calls (imageless_world answer) eq_refl)
    as (evs & v & r & E & H).
  destruct (invoke_log _ evs v r E) as (_ & _ & _ & R & _).
  unfold trace. rewrite remote_calls_rev, R.
  destruct H as [-> | ->]; reflexivity.
Qed.

(** ** Destroy by identifier, call by call *)

(** The remote calls of [unregisterRunner], in the order they are made:
    the list request, then the [DELETE] of the first runner that carries
    the label, if there is one. *)
Lemma unregisterRunner_calls (w : World) (owner repo token lbl : string) (s : state) :
  exists evs,
    unregisterRunner w (VStr owner) (VStr repo) (VStr token) (VStr lbl) s
    = (mkState (evs ++ log s) (linodeId s),
       match unregistration_error w owner repo lbl with
       | Some e => inl e
       | None => inr tt
       end)
    /\ remote_calls (rev evs)
       = AxiosGet (runners_url owner repo) token
         :: match axios_get_result w (runners_url owner repo) with
            | inl _ => []
            | inr runners =>
                match find (has_label (VStr lbl)) runners with
                | None => []
                | Some r =>
                    [AxiosDelete (runners_url owner repo ++ "/"
                                  ++ Z_to_string (runner_id r)) token]
                end
            end.
Proof.
  destruct s as [l v].
  cbv [unregisterRunner unregisterRunner_try unregisterRunner_catch try_catch bind
       core_info core_error axios_get axios_delete emit settle ret throw to_string
       unregistration_error].
  cbn [log linodeId].
  destruct (axios_get_result w (runners_url owner repo)) as [e|runners].
  - cbn [log linodeId response].
    destruct (response e) as [[st txt]|]; [destruct (st =? 422)|];
      cbn [log linodeId]; name_events l; (split; reflexivity).
  - cbn [log linodeId].
    destruct (find (has_label (VStr lbl)) runners) as [r|]; cbn [log linodeId].
    + destruct (axios_delete_result w _) as [e|[st txt]]; cbn [log linodeId].
      * destruct (response e) as [[st txt]|]; [destruct (st =? 422)|];
          cbn [log linodeId]; name_events l; (split; reflexivity).
      * destruct (st =? 204); cbn [log linodeId]; name_events l; (split; reflexivity).
    + name_events l; (split; reflexivity).
Qed.

(** The remote calls of a destroy request by identifier. *)
Lemma run_try_destroy_by_id_calls (w : World) :
  getInput w "action" = "destroy" ->
  getInput w "organization" <> EmptyString ->
  getInput w "repo_name" <> EmptyString ->
  getInput w "machine_id" <> EmptyString ->
  exists evs r,
    run_try w init = (mkState evs VNull, r)
    /\ remote_calls (rev evs)
       = List.app (AxiosGet (runners_url (getInput w "organization") (getInput w "repo_name"))
                   (getInput w "github_token")
          :: match axios_get_result w (runners_url (getInput w "organization")
                                                   (getInput w "repo_name")) with
             | inl _ => []
             | inr runners =>
                 match find (has_label
                               (VStr (or_else (getInput w "runner_label") "self-hosted")))
                            runners with
                 | None => []
                 | Some r =>
                     [AxiosDelete (runners_url (getInput w "organization")
                                               (getInput w "repo_name")
                                   ++ "/" ++ Z_to_string (runner_id r))
                                  (getInput w "github_token")]
                 end
             end)
         match invocation_unregistration_error w with
            | None => [DeleteLinode (VStr (getInput w "machine_id"))]
            | Some _ => []
            end.
Proof.
  intros Ha Ho Hr Hm.
  rewrite run_try_dispatch, dispatch_destroy by assumption.
  unfold run_destroy, invocation_unregistration_error. use_inputs.
  apply nonempty_true in Hm. rewrite Hm.
  cbv [bind core_info emit unregister_and_delete]. cbn [log linodeId init].
  use_inputs.
  match goal with
  | |- context [unregisterRunner ?w (VStr ?o) (VStr ?r) (VStr ?t) (VStr ?l) ?s] =>
      destruct (unregisterRunner_calls w o r t l s) as (evs & E & C)
  end.
  rewrite E. cbn [log linodeId].
  destruct (unregistration_error w _ _ _) as [e|].
  - do 2 eexists. split; [reflexivity|].
    rewrite !app_nil_r, rev_app_distr, remote_calls_app, C, remote_calls_rev.
    change (remote_calls (CoreInfo _ :: preamble w)) with (@nil event).
    reflexivity.
  - cbv [deleteLinode bind emit settle_unit]. cbn [log linodeId].
    destruct (deleteLinode_result w _) as [e|]; cbv [throw ret]; cbn [log linodeId].
    + do 2 eexists. split; [reflexivity|].
      rewrite !app_nil_r. cbn [rev].
      rewrite rev_app_distr, !remote_calls_app, C, remote_calls_rev.
      change (remote_calls (CoreInfo _ :: preamble w)) with (@nil event).
      cbn [rev app remote_calls filter is_remote_call]. rewrite ?app_nil_r.
      reflexivity.
    + do 2 eexists. split; [reflexivity|].
      rewrite !app_nil_r. cbn [rev].
      rewrite rev_app_distr, !remote_calls_app, C, remote_calls_rev.
      change (remote_calls (CoreInfo _ :: preamble w)) with (@nil event).
      cbn [rev app remote_calls filter is_remote_call]. rewrite ?app_nil_r.
      reflexivity.
Qed.

(** C10 (as amended): in a destroy request with a machine identifier,
    whatever the search phrase, the identifier takes precedence: the
    instances are never listed.  The remote calls are, in this order, the
    request for the list of runners, the [DELETE] of the first runner that
    carries the runner label, if there is one, and the deletion of the
    instance with the given identifier.  That deletion is made, once,
    exactly when the unregistration returns: not when the list request or
    the [DELETE] of the runner is rejected.  No other instance is ever
    deleted. *)
Theorem machine_id_takes_precedence (w : World) :
  getInput w "action" = "destroy" ->
  getInput w "organization" <> EmptyString ->
  getInput w "repo_name" <> EmptyString ->
  getInput w "machine_id" <> EmptyString ->
  let s := fst (invoke w) in
  let url := runners_url (getInput w "organization") (getInput w "repo_name") in
  let token := getInput w "github_token" in
  let runnerLabel := VStr (or_else (getInput w "runner_label") "self-hosted") in
  let deletion := DeleteLinode (VStr (getInput w "machine_id")) in
  remote_calls (trace s)
  = AxiosGet url token
    :: match axios_get_result w url with
       | inl _ => []
       | inr runners =>
           match find (has_label runnerLabel) runners with
           | None => [deletion]
           | Some r =>
               AxiosDelete (url ++ "/" ++ Z_to_string (runner_id r)) token
               :: match axios_delete_result w
                          (url ++ "/" ++ Z_to_string (runner_id r)) with
                  | inl _ => []
                  | inr _ => [deletion]
                  end
           end
       end
  /\ existsb is_list_call (log s) = false
  /\ deletions (log s)
     = match invocation_unregistration_error w with
       | None => [VStr (getInput w "machine_id")]
       | Some _ => []
       end.
Proof.
  intros Ha Ho Hr Hm s url token runnerLabel deletion.
  subst s url token runnerLabel deletion.
  assert (Ht : resolved_target w = Some (VStr (getInput w "machine_id"))).
  { unfold resolved_target. apply nonempty_true in Hm. now rewrite Hm. }
  destruct (run_try_destroy_resolved w _ Ha Ho Hr Ht)
    as (evs & r & E & D & _ & _ & _ & L & _).
  destruct (run_try_destroy_by_id_calls w Ha Ho Hr Hm) as (evs' & r' & E' & C).
  rewrite E in E'. injection E' as <- <-.
  destruct (invoke_log w evs VNull r E) as (D' & _ & L' & R' & _).
  unfold trace. rewrite remote_calls_rev, R', <- remote_calls_rev, C, D', D, L', L.
  apply nonempty_true in Hm. rewrite Hm.
  repeat split.
  unfold invocation_unregistration_error, unregistration_error.
  destruct (axios_get_result w _) as [e|runners]; [reflexivity|].
  destruct (find _ runners) as [x|]; [|reflexivity].
  destruct (axios_delete_result w _) as [e|[st txt]]; reflexivity.
Qed.

Lemma machine_id_takes_precedence_witness :
  let w := destroy_world (inr (204, "No Content")) in
  let s := fst (invoke w) in
  getInput w "search_phrase" = "ci-runner"
  /\ remote_calls (trace s)
     = [ AxiosGet "https://api.github.com/repos/acme/site/actions/runners" "ghp";
         AxiosDelete "https://api.github.com/repos/acme/site/actions/runners/5" "ghp";
         DeleteLinode (VStr "12345") ]
  /\ existsb is_list_call (log s) = false
  /\ deletions (log s) = [VStr "12345"].
Proof.
  assert (Ho : getInput (destroy_world (inr (204, "No Content"))) "organization"
               <> EmptyString) by discriminate.
  assert (Hr : getInput (destroy_world (inr (204, "No Content"))) "repo_name"
               <> EmptyString) by discriminate.
  assert (Hm : getInput (destroy_world (inr (204, "No Content"))) "machine_id"
               <> EmptyString) by discriminate.
  pose proof (machine_id_takes_precedence (destroy_world (inr (204, "No Content")))
                eq_refl Ho Hr Hm) as H.
  split; [reflexivity|]. vm_compute in H |- *. exact H.
Defined.

(** C10 (counterexample): a machine identifier and a search phrase are
    both given and GitHub rejects the [DELETE] of the runner: the
    instances are not listed, and the instance with that identifier is
    not deleted. *)
Lemma machine_id_given_and_nothing_deleted :
  let w := destroy_world (inl status_500) in
  let s := fst (invoke w) in
  getInput w "machine_id" = "12345"
  /\ getInput w "search_phrase" = "ci-runner"
  /\ remote_calls (trace s)
     = [ AxiosGet "https://api.github.com/repos/acme/site/actions/runners" "ghp";
         AxiosDelete "https://api.github.com/repos/acme/site/actions/runners/5" "ghp" ]
  /\ deletions (log s) = []
  /\ failures (log s) = ["Request failed with status code 500"].
Proof. vm_compute. repeat split. Qed.

(** ** Tag parsing against its description *)

Lemma nonempty_false_empty (s : string) : nonempty s = false -> s = EmptyString.
Proof. destruct s; [reflexivity|discriminate]. Qed.

Lemma all_white_app (a b : string) :
  all_white (a ++ b) = all_white a && all_white b.
Proof.
  induction a as [|c a IH]; [reflexivity|].
  simpl. now rewrite IH, andb_assoc.
Qed.

Lemma trimStart_split (p : string) :
  exists l, p = l ++ trimStart p /\ all_white l = true.
Proof.
  induction p as [|c p (l & E & W)].
  - now exists EmptyString.
  - simpl. destruct (is_white c) eqn:Hc.
    + exists (String c l). simpl. rewrite Hc, W. split; [now rewrite <- E|reflexivity].
    + now exists EmptyString.
Qed.

Lemma trimEnd_split (q : string) :
  exists r, q = trimEnd q ++ r /\ all_white r = true.
Proof.
  induction q as [|c q (r & E & W)].
  - now exists EmptyString.
  - simpl. destruct (trimEnd q) as [|d q'] eqn:T.
    + simpl in E. subst q. destruct (is_white c) eqn:Hc.
      * exists (String c r). simpl. now rewrite Hc, W.
      * exists r. now split.
    + exists r. simpl. split; [now rewrite E at 1|assumption].
Qed.

Lemma trimStart_app_white (l x : string) :
  all_white l = true -> trimStart (l ++ x) = trimStart x.
Proof.
  induction l as [|c l IH]; [reflexivity|].
  simpl. intros H. apply andb_true_iff in H as [Hc Hl]. rewrite Hc. now apply IH.
Qed.

Lemma trimEnd_app_white (x r : string) :
  all_white r = true -> trimEnd (x ++ r) = trimEnd x.
Proof.
  intros H. induction x as [|c x IH].
  - simpl. now apply trimEnd_empty.
  - simpl. now rewrite IH.
Qed.

(** The description of trimming and [trim] agree. *)
Lemma trimmed_of_iff (t piece : string) : trimmed_of t piece <-> trim piece = t.
Proof.
  split.
  - intros (l & r & -> & Wl & Wr & F & L). unfold trim.
    rewrite trimStart_app_white by assumption.
    destruct t as [|c t].
    + simpl. apply trimEnd_empty. rewrite all_white_trimStart. exact Wr.
    + rewrite (trimStart_id (String c t ++ r)) by exact F.
      rewrite trimEnd_app_white by assumption. now apply trimEnd_id.
  - intros <-. unfold trim.
    destruct (trimStart_split piece) as (l & El & Wl).
    destruct (trimEnd_split (trimStart piece)) as (r & Er & Wr).
    exists l, r. split; [now rewrite <- Er|].
    repeat split; auto; apply trim_ends.
Qed.

Lemma join_cons_char (sep : string) (c : ascii) (h : string) (t : list string) :
  join sep (String c h :: t) = String c (join sep (h :: t)).
Proof. destruct t; reflexivity. Qed.

Lemma split_not_nil (sep : ascii) (s : string) : split sep s <> [].
Proof.
  destruct s as [|c s]; simpl; [discriminate|].
  destruct (Ascii.eqb c sep); [discriminate|]. destruct (split sep s); discriminate.
Qed.

Lemma join_split (sep : ascii) (s : string) :
  join (String sep EmptyString) (split sep s) = s.
Proof.
  induction s as [|c s IH]; [reflexivity|].
  simpl split. pose proof (split_not_nil sep s) as N.
  destruct (Ascii.eqb_spec c sep) as [->|Hn].
  - destruct (split sep s) as [|h t]; [congruence|].
    change (join (String sep EmptyString) (EmptyString :: h :: t))
      with (String sep (join (String sep EmptyString) (h :: t))).
    now rewrite IH.
  - destruct (split sep s) as [|h t]; [congruence|].
    now rewrite join_cons_char, IH.
Qed.

Lemma split_pieces_no_sep (sep : ascii) (s : string) :
  Forall (fun p => count_char sep p = 0) (split sep s).
Proof.
  induction s as [|c s IH]; simpl.
  - now repeat constructor.
  - destruct (Ascii.eqb c sep) eqn:E.
    + now constructor.
    + destruct (split sep s) as [|h t]; [now repeat constructor; simpl; rewrite E|].
      inversion IH as [|? ? Hh Ht]; subst. constructor; [|assumption].
      simpl. now rewrite E.
Qed.

(** A text has one list of pieces: the one [split] computes. *)
Lemma pieces_of_iff (raw : string) (pieces : list string) :
  pieces_of raw pieces <-> split "," raw = pieces.
Proof.
  split.
  - intros (N & J & F). subst raw.
    induction pieces as [|x l IH]; [congruence|].
    inversion F as [|? ? Hx Hl]; subst.
    destruct l as [|y l].
    + simpl. now apply split_no_sep.
    + change (join "," (x :: y :: l)) with (x ++ String "," (join "," (y :: l))).
      rewrite split_app_sep by assumption.
      now rewrite (IH ltac:(discriminate) Hl).
  - intros <-. split; [apply split_not_nil|].
    split; [apply join_split|apply split_pieces_no_sep].
Qed.

Lemma Forall2_trimmed (tokens pieces : list string) :
  Forall2 trimmed_of tokens pieces <-> tokens = map trim pieces.
Proof.
  split.
  - induction 1 as [|t p ts ps H _ IH]; [reflexivity|].
    apply trimmed_of_iff in H. simpl. now rewrite H, IH.
  - intros ->. induction pieces as [|p ps IH]; simpl; constructor; [|assumption].
    now apply trimmed_of_iff.
Qed.

(** C8 (as amended): tag parsing yields, in their order, the pieces of
    the input between its commas, each without the white space at its
    ends, and nothing for the empty input; the tokens of [a, b ,c] are
    [a], [b], [c].  A non-empty input yields one token more than it has
    commas, no token starts or ends with white space, and empty tokens
    are kept: a token is empty exactly when its piece is empty or white
    space. *)
Theorem parse_tags_spec :
  parse_tags "a, b ,c" = ["a"; "b"; "c"]
  /\ parse_tags EmptyString = []
  /\ (forall raw tokens,
        parse_tags raw = tokens
        <-> (raw = EmptyString /\ tokens = [])
            \/ (raw <> EmptyString
                /\ exists pieces,
                     pieces_of raw pieces /\ Forall2 trimmed_of tokens pieces))
  /\ (forall raw, raw <> EmptyString ->
        length (parse_tags raw) = S (count_char "," raw))
  /\ (forall raw t, In t (parse_tags raw) ->
        white_char (first_char t) = false /\ white_char (last_char t) = false)
  /\ (forall raw, In EmptyString (parse_tags raw)
        <-> raw <> EmptyString
            /\ exists piece, In piece (split "," raw) /\ all_white piece = true).
Proof.
  split; [reflexivity|]. split; [reflexivity|]. split; [|split; [|split]].
  - intros raw tokens. unfold parse_tags. split.
    + intros <-. destruct (nonempty raw) eqn:N.
      * right. split; [now apply nonempty_true|].
        exists (split "," raw). split; [now apply pieces_of_iff|].
        now apply Forall2_trimmed.
      * left. apply nonempty_false_empty in N. now split.
    + intros [[-> ->]|(N & pieces & P & F)]; [reflexivity|].
      apply nonempty_true in N. rewrite N.
      apply pieces_of_iff in P. apply Forall2_trimmed in F. now subst.
  - intros raw H. unfold parse_tags. apply nonempty_true in H. rewrite H.
    now rewrite length_map, split_length.
  - intros raw t H. unfold parse_tags in H. destruct (nonempty raw); [|contradiction].
    apply in_map_iff in H as (p & <- & _). apply trim_ends.
  - intros raw. split.
    + intros H. unfold parse_tags in H. destruct (nonempty raw) eqn:N; [|contradiction].
      split; [now apply nonempty_true|].
      apply in_map_iff in H as (p & E & Hp). exists p. split; [assumption|].
      now apply trim_empty.
    + intros (Hne & p & Hp & Hw). unfold parse_tags.
      apply nonempty_true in Hne. rewrite Hne.
      apply in_map_iff. exists p. split; [now apply trim_empty|assumption].
Qed.
